(** * Quota gate of the summarisation service (src/Main.py)

    A shallow embedding of [get_user_from_db], [update_user_usage],
    [verify_api_key] and [resumage], and the properties of the gate they
    implement: authentication, the daily quota of the "free" plan, the
    one-request-per-second throttle and the day rollover of the counter.

    Modelling choices.
    - The MySQL table [users] is a list of rows, in storage order.
      [SELECT ... fetchone()] is the first matching row, [UPDATE ... WHERE]
      rewrites every matching row.  Columns are compared with the equality
      of their Python values.
    - Code that reads and writes the table is a function [DB -> result A * DB]
      (a state monad with exceptions); a raised exception leaves the table
      as it was when nothing had been written before the [raise].
    - [time.time()] and the stored [last_request_time] are doubles; they are
      modelled by the rational number they denote, and their difference is
      the exact difference rounded to the nearest double, as the processor
      computes it.  A calendar date is its ordinal day number.
    - The three clock reads of one request ([date.today()] in
      [verify_api_key], [date.today()] and [time.time()] in
      [update_user_usage]) are the fields of a [Clock]. *)

From Stdlib Require Import ZArith QArith List String Bool Lia Lqa.
Import ListNotations.

Open Scope string_scope.
Open Scope Z_scope.

(** ** Data model *)

Definition date := Z.

(** One row of the table [users], as the [DictCursor] returns it. *)
Record User := mkUser {
  id : Z;
  api_key : string;
  plan : string;
  requests_today : Z;
  last_request_date : option date;   (* NULL is None *)
  last_request_time : option Q       (* NULL is None *)
}.

Definition DB := list User.

Inductive exn :=
| HTTPException (status_code : Z) (detail : string)
| TypeError                       (* subscripting the None of an empty fetchone() *)
| PipelineError (msg : string).   (* anything the summarisation pipeline raises *)

Inductive result (A : Type) :=
| Ok (a : A)
| Raise (e : exn).
Arguments Ok {A} a.
Arguments Raise {A} e.

(** State-and-exception monad over the table. *)
Definition M (A : Type) := DB -> result A * DB.

Definition ret {A} (a : A) : M A := fun db => (Ok a, db).
Definition raise {A} (e : exn) : M A := fun db => (Raise e, db).
Definition bind {A B} (m : M A) (k : A -> M B) : M B :=
  fun db => match m db with
            | (Ok a, db') => k a db'
            | (Raise e, db') => (Raise e, db')
            end.

Declare Scope gate_scope.
Delimit Scope gate_scope with gate.
Notation "x <- m ;; k" := (bind m (fun x => k))
  (at level 61, m at next level, right associativity) : gate_scope.
Notation "m ;;; k" := (bind m (fun _ => k))
  (at level 61, right associativity) : gate_scope.

(** ** Configuration *)

Definition DAILY_LIMIT : Z := 20.

Definition MSG_MISSING : string := "Clé API manquante".
Definition MSG_INVALID : string := "Clé API invalide".
Definition MSG_RATE : string := "Trop de requêtes, attendez 1 seconde.".
Definition MSG_QUOTA : string := "Quota journalier atteint. Passez au plan PRO.".

(** The rejection kinds of the gate, as the HTTP exceptions the code raises. *)
Definition Unauthenticated_missing : exn := HTTPException 401 MSG_MISSING.
Definition Unauthenticated_invalid : exn := HTTPException 401 MSG_INVALID.
Definition RateLimited : exn := HTTPException 429 MSG_RATE.
Definition QuotaExceeded : exn := HTTPException 429 MSG_QUOTA.

(** ** Python primitives *)

(** [a != today] for a nullable DATE column. *)
Definition date_neq (a : option date) (today : date) : bool :=
  match a with
  | Some d => negb (d =? today)
  | None => true
  end.

Definition Qlt_bool (x y : Q) : bool := negb (Qle_bool y x).

(** Truth value of a nullable numeric column: None and 0.0 are false. *)
Definition truthy (t : option Q) : bool :=
  match t with
  | Some x => negb (Qeq_bool x 0)
  | None => false
  end.

(** *** Double-precision subtraction

    [now_ts - float(...)] is the IEEE 754 binary64 subtraction: the exact
    difference rounded to the nearest double, ties to the even significand.
    [to_double] is that rounding on the rationals: 53 significant bits, the
    smallest exponent that of the subnormal doubles.  (Results beyond the
    largest double, which Python gives as [inf], are kept as the finite
    rounded value; both are on the same side of 1.) *)

(** The integer nearest to [p/q], ties to even, for [0 <= p] and [0 < q]. *)
Definition rne (p q : Z) : Z :=
  let f := p / q in
  match (2 * (p mod q)) ?= q with
  | Lt => f
  | Gt => f + 1
  | Eq => if Z.even f then f else f + 1
  end.

(** The integer [l] with [2^l <= n/d < 2^(l+1)], for [0 < n]. *)
Definition floor_log2 (n : Z) (d : positive) : Z :=
  let l0 := Z.log2 n - Z.log2 (Zpos d) in
  if (if 0 <=? l0 then Zpos d * 2 ^ l0 <=? n else Zpos d <=? n * 2 ^ (- l0))
  then l0 else l0 - 1.

(** The double nearest to [n/d], for [0 < n]. *)
Definition double_of_pos (n : Z) (d : positive) : Q :=
  let e := Z.max (floor_log2 n d - 52) (-1074) in
  if 0 <=? e
  then inject_Z (rne n (Zpos d * 2 ^ e) * 2 ^ e)
  else rne (n * 2 ^ (- e)) (Zpos d) # Z.to_pos (2 ^ (- e)).

Definition to_double (x : Q) : Q :=
  match Qnum x with
  | Z0 => 0
  | Zpos _ => double_of_pos (Qnum x) (Qden x)
  | Zneg _ => - double_of_pos (- Qnum x) (Qden x)
  end.

(** [a - b] on two doubles. *)
Definition double_sub (a b : Q) : Q := to_double (a - b).

(** [u["last_request_time"] and now_ts - float(u["last_request_time"]) < 1];
    the stored time is the double a previous request wrote, and [float] of
    it is itself. *)
Definition too_soon (lrt : option Q) (now_ts : Q) : bool :=
  match lrt with
  | Some t => truthy lrt && Qlt_bool (double_sub now_ts t) 1
  | None => false
  end.

(** ** Store access *)

Definition select_by_key (k : string) (db : DB) : option User :=
  find (fun u => String.eqb (api_key u) k) db.

Definition select_by_id (uid : Z) (db : DB) : option User :=
  find (fun u => id u =? uid) db.

(** One row under [UPDATE ... WHERE id=uid]. *)
Definition updated_row (uid : Z) (f : User -> User) (u : User) : User :=
  if id u =? uid then f u else u.

Definition update_where_id (uid : Z) (f : User -> User) (db : DB) : DB :=
  map (updated_row uid f) db.

(** [SET requests_today=1, last_request_date=today, last_request_time=now_ts] *)
Definition set_reset (today : date) (now_ts : Q) (u : User) : User :=
  mkUser (id u) (api_key u) (plan u) 1 (Some today) (Some now_ts).

(** [SET requests_today=requests_today+1, last_request_time=now_ts] *)
Definition set_incr (now_ts : Q) (u : User) : User :=
  mkUser (id u) (api_key u) (plan u) (requests_today u + 1)
         (last_request_date u) (Some now_ts).

(** [user["requests_today"] = 0] on the fetched dict (not on the table). *)
Definition with_requests_today (n : Z) (u : User) : User :=
  mkUser (id u) (api_key u) (plan u) n (last_request_date u) (last_request_time u).

(** ** The functions of Main.py *)

Open Scope gate_scope.

Definition get_user_from_db (k : string) : M User :=
  fun db =>
    match select_by_key k db with
    | Some user => (Ok user, db)
    | None => (Raise (HTTPException 401 MSG_INVALID), db)
    end.

(** Lines 66-82 of [update_user_usage]: the throttle on the fetched row [u],
    then the UPDATE and the commit. *)
Definition commit_usage (today : date) (now_ts : Q) (user_id : Z) (u : User) : M unit :=
  fun db =>
    if too_soon (last_request_time u) now_ts then
      (Raise (HTTPException 429 MSG_RATE), db)
    else if date_neq (last_request_date u) today then
      (Ok tt, update_where_id user_id (set_reset today now_ts) db)
    else
      (Ok tt, update_where_id user_id (set_incr now_ts) db).

Definition update_user_usage (today : date) (now_ts : Q) (user_id : Z) : M unit :=
  fun db =>
    match select_by_id user_id db with
    | None => (Raise TypeError, db)
    | Some u => commit_usage today now_ts user_id u db
    end.

Record Clock := mkClock {
  verify_today : date;   (* date.today() in verify_api_key *)
  update_today : date;   (* date.today() in update_user_usage *)
  now_ts : Q             (* time.time() in update_user_usage *)
}.

(** A request whose clock reads all fall on the day [today]. *)
Definition at_time (today : date) (now : Q) : Clock := mkClock today today now.

(** Lines 94-99: the quota pre-check on the fetched dict. *)
Definition check_quota (today : date) (user : User) : M User :=
  if String.eqb (plan user) "free" then
    let user := if date_neq (last_request_date user) today
                then with_requests_today 0 user else user in
    if DAILY_LIMIT <=? requests_today user
    then raise (HTTPException 429 MSG_QUOTA)
    else ret user
  else ret user.

Definition verify_api_key (c : Clock) (x_api_key : option string) : M User :=
  match x_api_key with
  | None => raise (HTTPException 401 MSG_MISSING)
  | Some "" => raise (HTTPException 401 MSG_MISSING)
  | Some k =>
      user <- get_user_from_db k ;;
      user <- check_quota (verify_today c) user ;;
      update_user_usage (update_today c) (now_ts c) (id user) ;;;
      ret user
  end.

(** ** The endpoint *)

Record TexteReq := mkTexteReq {
  content : string;
  max_length : Z;
  min_length : Z
}.

Record Response := mkResponse {
  user_id : Z;
  resp_plan : string;
  summary : string
}.

Section Endpoint.

(** The summarisation pipeline, an external collaborator: text and the two
    lengths in, the summary text out, or an exception. *)
Variable SUMMARIZER : string -> Z -> Z -> result string.

(** [resumage] with its dependency [verify_api_key] resolved first, as
    FastAPI does.  The third component lists the pipeline invocations the
    request made. *)
Definition resumage (c : Clock) (x_api_key : option string) (req : TexteReq)
  (db : DB) : result Response * DB * list TexteReq :=
  match verify_api_key c x_api_key db with
  | (Raise e, db') => (Raise e, db', [])
  | (Ok user, db') =>
      match SUMMARIZER (content req) (max_length req) (min_length req) with
      | Ok s => (Ok (mkResponse (id user) (plan user) s), db', [req])
      | Raise e => (Raise e, db', [req])
      end
  end.

End Endpoint.

(** ** Sequential service of one caller *)

(** The requests of one credential, served one after the other; the clock of
    each request is given. *)
Fixpoint serve (k : option string) (cs : list Clock) (db : DB)
  : list (result User) * DB :=
  match cs with
  | [] => ([], db)
  | c :: cs' =>
      let '(o, db1) := verify_api_key c k db in
      let '(os, db2) := serve k cs' db1 in
      (o :: os, db2)
  end.

Definition is_Ok {A} (r : result A) : bool :=
  match r with Ok _ => true | Raise _ => false end.

(** ** Interleaved service of two requests

    One request as a thread that advances one SQL statement at a time:
    the SELECT of [get_user_from_db] (with the quota pre-check on its
    result), the SELECT of [update_user_usage], then the throttle test on
    the row that SELECT returned together with the UPDATE and commit. *)

Inductive Thread :=
| AtLookup (k : option string)
| AtSelect (user : User)
| AtUpdate (user u : User)
| Finished (r : result User).

Definition step (c : Clock) (t : Thread) (db : DB) : Thread * DB :=
  match t with
  | AtLookup None => (Finished (Raise (HTTPException 401 MSG_MISSING)), db)
  | AtLookup (Some "") => (Finished (Raise (HTTPException 401 MSG_MISSING)), db)
  | AtLookup (Some k) =>
      match (user <- get_user_from_db k ;; check_quota (verify_today c) user) db with
      | (Ok user, db') => (AtSelect user, db')
      | (Raise e, db') => (Finished (Raise e), db')
      end
  | AtSelect user =>
      match select_by_id (id user) db with
      | None => (Finished (Raise TypeError), db)
      | Some u => (AtUpdate user u, db)
      end
  | AtUpdate user u =>
      match commit_usage (update_today c) (now_ts c) (id user) u db with
      | (Ok _, db') => (Finished (Ok user), db')
      | (Raise e, db') => (Finished (Raise e), db')
      end
  | Finished r => (Finished r, db)
  end.

(** Two requests with clocks [c1] and [c2]; the schedule names, statement by
    statement, which of them advances ([false] the first, [true] the second). *)
Fixpoint interleave (c1 c2 : Clock) (sched : list bool) (t1 t2 : Thread) (db : DB)
  : Thread * Thread * DB :=
  match sched with
  | [] => (t1, t2, db)
  | false :: sched' =>
      let '(t1', db') := step c1 t1 db in interleave c1 c2 sched' t1' t2 db'
  | true :: sched' =>
      let '(t2', db') := step c2 t2 db in interleave c1 c2 sched' t1 t2' db'
  end.

(** The first request runs to completion, then the second. *)
Definition one_after_the_other : list bool := [false; false; false; true; true; true].

(** Both requests read the row before either writes it. *)
Definition both_read_first : list bool := [false; true; false; true; false; true].

(** ** Vocabulary of the specification, on one row *)

(** The counter as of [today]: a stale counter counts as zero. *)
Definition effective_requests_today (today : date) (r : User) : Z :=
  if date_neq (last_request_date r) today then 0 else requests_today r.

Definition quota_reached (today : date) (r : User) : bool :=
  String.eqb (plan r) "free" && (DAILY_LIMIT <=? effective_requests_today today r).

(** The dict [verify_api_key] returns for the row [r]. *)
Definition fetched_view (today : date) (r : User) : User :=
  if String.eqb (plan r) "free" && date_neq (last_request_date r) today
  then with_requests_today 0 r else r.

(** The UPDATE an accepted request of the row [r] issues. *)
Definition usage_update (today : date) (now : Q) (r : User) : User -> User :=
  if date_neq (last_request_date r) today
  then set_reset today now else set_incr now.

(** The row after an accepted request. *)
Definition committed (today : date) (now : Q) (r : User) : User :=
  if date_neq (last_request_date r) today
  then set_reset today now r else set_incr now r.

(** The credential [k] is not empty and selects the row [r] of a table whose
    ids are unique. *)
Definition registered (db : DB) (k : string) (r : User) : Prop :=
  k <> "" /\ select_by_key k db = Some r /\ NoDup (map id db).

Definition stored (db : DB) (r : User) : Prop :=
  select_by_id (id r) db = Some r.

(** The timestamps of the requests that were accepted, in order. *)
Fixpoint accepted_times (ts : list Q) (outs : list (result User)) : list Q :=
  match ts, outs with
  | t :: ts', o :: os =>
      if is_Ok o then t :: accepted_times ts' os else accepted_times ts' os
  | _, _ => []
  end.

(** Every timestamp of [l] is at least its predecessor, the first one at
    least [prev] when there is one. *)
Fixpoint nondecreasing (prev : option Q) (l : list Q) : Prop :=
  match l with
  | [] => True
  | t :: l' => (forall p, prev = Some p -> (p <= t)%Q) /\ nondecreasing (Some t) l'
  end.

(** Consecutive timestamps are at least one second apart. *)
Fixpoint spaced (ts : list Q) : Prop :=
  match ts with
  | [] => True
  | t1 :: rest =>
      match rest with
      | [] => True
      | t2 :: _ => (1 <= t2 - t1)%Q /\ spaced rest
      end
  end.

(** The first [budget] outcomes are accepted, every later one is rejected
    with QuotaExceeded. *)
Fixpoint quota_pattern (budget : nat) (outs : list (result User)) : Prop :=
  match outs with
  | [] => True
  | o :: os =>
      match budget with
      | O => o = Raise QuotaExceeded /\ quota_pattern O os
      | S b => is_Ok o = true /\ quota_pattern b os
      end
  end.

(** ** Vocabulary of the further properties *)

(** The exceptions the gate raises on purpose. *)
Definition gate_exception (e : exn) : Prop :=
  e = Unauthenticated_missing \/ e = Unauthenticated_invalid \/
  e = QuotaExceeded \/ e = RateLimited.

(** Every timestamp of [l] is at least one second after its predecessor as
    the code measures it -- their difference in double precision is at least
    1 -- and so at least [1 - 2^-54] seconds after it in exact time, unless
    that predecessor is 0.0; the first one is compared with [prev]. *)
Fixpoint one_second_apart (prev : option Q) (l : list Q) : Prop :=
  match l with
  | [] => True
  | t :: l' =>
      (forall p, prev = Some p ->
         (p == 0)%Q \/
         ((1 <= double_sub t p)%Q /\ (1 - (1 # 2 ^ 54) <= t - p)%Q)) /\
      one_second_apart (Some t) l'
  end.

(** [n] statements of one request, run without interruption. *)
Fixpoint solo (c : Clock) (n : nat) (t : Thread) (db : DB) : Thread * DB :=
  match n with
  | O => (t, db)
  | S n' => let '(t', db') := step c t db in solo c n' t' db'
  end.

(** How many statements the schedule gives to the request [b]. *)
Fixpoint turns (b : bool) (sched : list bool) : nat :=
  match sched with
  | [] => O
  | x :: sched' => if Bool.eqb x b then S (turns b sched') else turns b sched'
  end.

(** The thread [t] works for the caller whose row has id [uid]. *)
Definition works_for (uid : Z) (t : Thread) (db : DB) : Prop :=
  match t with
  | AtLookup (Some k) =>
      forall r, select_by_key k db = Some r -> id r = uid
  | AtLookup None => True
  | AtSelect user => id user = uid
  | AtUpdate user u => id user = uid
  | Finished _ => True
  end.

(** ** Sample data for the concrete instances *)

(** Sample rows and tables for the concrete instances below. *)
Definition free_row (n : Z) (d : option date) (t : option Q) : User :=
  mkUser 7 "key-7" "free" n d t.
Definition pro_row (n : Z) (d : option date) (t : option Q) : User :=
  mkUser 8 "key-8" "pro" n d t.

(** Twenty-one timestamps two seconds apart, starting at 1000 s. *)
Definition two_seconds_apart : list Q :=
  map (fun i => inject_Z (1000 + 2 * Z.of_nat i)) (seq 0 21).

(** A pipeline that always fails. *)
Definition broken_pipeline (text : string) (maxlen minlen : Z) : result string :=
  Raise (PipelineError "model error").

(** A pipeline that returns the first four characters of the text. *)
Definition echo_pipeline (text : string) (maxlen minlen : Z) : result string :=
  Ok (substring 0 4 text).

(** * Properties *)

(** [registered] on a concrete one-row table. *)
Ltac concrete_registered :=
  repeat split; [discriminate | simpl; constructor; [simpl; tauto | constructor]].

(** ** Comparisons *)

Lemma Qlt_bool_iff (x y : Q) : Qlt_bool x y = true <-> (x < y)%Q.
Proof.
  unfold Qlt_bool. rewrite negb_true_iff. split.
  - intros H. destruct (Qlt_le_dec x y) as [L | L]; [exact L | ].
    apply Qle_bool_iff in L. congruence.
  - intros H. destruct (Qle_bool y x) eqn:E; [ | reflexivity].
    apply Qle_bool_iff in E. lra.
Qed.

(** ** Rounding to the nearest double *)

Lemma rne_ge_div (p q : Z) : p / q <= rne p q.
Proof.
  unfold rne. destruct ((2 * (p mod q)) ?= q); [destruct (Z.even (p / q)) | | ]; lia.
Qed.

Lemma rne_le_div (p q : Z) : rne p q <= p / q + 1.
Proof.
  unfold rne. destruct ((2 * (p mod q)) ?= q); [destruct (Z.even (p / q)) | | ]; lia.
Qed.

Lemma rne_nonneg (p q : Z) : 0 <= p -> 0 < q -> 0 <= rne p q.
Proof.
  intros Hp Hq. pose proof (rne_ge_div p q). pose proof (Z.div_pos p q Hp Hq). lia.
Qed.

Lemma floor_log2_lower (n : Z) (d : positive) :
  Zpos d <= n ->
  0 <= floor_log2 n d /\ Zpos d * 2 ^ floor_log2 n d <= n.
Proof.
  intros Hn. unfold floor_log2.
  assert (Hd : 0 < Zpos d) by lia.
  assert (Hn0 : 0 < n) by lia.
  pose proof (Z.log2_le_mono _ _ Hn) as Hmono.
  destruct (Z.log2_spec _ Hn0) as [Hn1 _].
  destruct (Z.log2_spec _ Hd) as [_ Hd2].
  pose proof (Z.log2_nonneg (Z.pos d)) as Hld.
  set (ln := Z.log2 n) in *. set (ld := Z.log2 (Z.pos d)) in *.
  assert (H0 : (0 <=? ln - ld) = true) by (apply Z.leb_le; lia).
  rewrite H0.
  destruct (Z.pos d * 2 ^ (ln - ld) <=? n) eqn:E.
  - apply Z.leb_le in E. split; [lia | exact E].
  - apply Z.leb_gt in E.
    assert (ln - ld <> 0) by (intros Hz; rewrite Hz in E; simpl in E; lia).
    split; [lia | ].
    replace ln with (Z.succ ld + (ln - ld - 1)) in Hn1 by lia.
    rewrite Z.pow_add_r in Hn1 by lia.
    assert (0 < 2 ^ (ln - ld - 1)) by (apply Z.pow_pos_nonneg; lia).
    nia.
Qed.

Lemma double_of_pos_nonneg (n : Z) (d : positive) : 0 < n -> (0 <= double_of_pos n d)%Q.
Proof.
  intros Hn. unfold double_of_pos.
  set (e := Z.max (floor_log2 n d - 52) (-1074)).
  destruct (0 <=? e) eqn:E.
  - apply Z.leb_le in E.
    assert (0 < 2 ^ e) by (apply Z.pow_pos_nonneg; lia).
    assert (0 <= rne n (Z.pos d * 2 ^ e))
      by (apply rne_nonneg; [lia | apply Z.mul_pos_pos; lia]).
    unfold Qle. cbn [Qnum Qden inject_Z]. nia.
  - apply Z.leb_gt in E.
    assert (0 < 2 ^ (- e)) by (apply Z.pow_pos_nonneg; lia).
    assert (0 <= rne (n * 2 ^ (- e)) (Z.pos d))
      by (apply rne_nonneg; [nia | lia]).
    unfold Qle. cbn [Qnum Qden]. lia.
Qed.

Lemma double_of_pos_ge_1 (n : Z) (d : positive) :
  Zpos d <= n -> (1 <= double_of_pos n d)%Q.
Proof.
  intros Hn. destruct (floor_log2_lower n d Hn) as [Hl Hpow].
  unfold double_of_pos.
  set (l := floor_log2 n d) in *.
  replace (Z.max (l - 52) (-1074)) with (l - 52) by lia.
  destruct (0 <=? l - 52) eqn:E.
  - apply Z.leb_le in E.
    assert (H2 : 0 < 2 ^ (l - 52)) by (apply Z.pow_pos_nonneg; lia).
    pose proof (rne_ge_div n (Z.pos d * 2 ^ (l - 52))) as Hr.
    assert (1 <= n / (Z.pos d * 2 ^ (l - 52))).
    { apply Z.div_le_lower_bound; [lia | ].
      replace l with ((l - 52) + 52) in Hpow at 1 by lia.
      rewrite Z.pow_add_r in Hpow by lia.
      assert (1 <= 2 ^ 52) by (vm_compute; discriminate). nia. }
    unfold Qle. cbn [Qnum Qden inject_Z].
    assert (1 * 1 <= rne n (Z.pos d * 2 ^ (l - 52)) * 2 ^ (l - 52))
      by (apply Z.mul_le_mono_nonneg; lia).
    lia.
  - apply Z.leb_gt in E.
    assert (H2 : 0 < 2 ^ (- (l - 52))) by (apply Z.pow_pos_nonneg; lia).
    pose proof (rne_ge_div (n * 2 ^ (- (l - 52))) (Z.pos d)) as Hr.
    assert (2 ^ 52 <= n * 2 ^ (- (l - 52)) / Z.pos d).
    { apply Z.div_le_lower_bound; [lia | ].
      replace 52 with (l + - (l - 52)) at 1 by lia.
      rewrite Z.pow_add_r by lia. nia. }
    assert (2 ^ (- (l - 52)) <= 2 ^ 52) by (apply Z.pow_le_mono_r; lia).
    unfold Qle. cbn [Qnum Qden]. rewrite Z2Pos.id by lia. lia.
Qed.

Lemma to_double_ge_1 (x : Q) : (1 <= x)%Q -> (1 <= to_double x)%Q.
Proof.
  intros H. unfold Qle in H. simpl in H. unfold to_double.
  destruct x as [n d]. simpl in *.
  destruct n as [ | n | n]; try lia.
  apply double_of_pos_ge_1. lia.
Qed.

Lemma to_double_nonpos (x : Q) : (x <= 0)%Q -> (to_double x <= 0)%Q.
Proof.
  intros H. unfold Qle in H. simpl in H. unfold to_double.
  destruct x as [n d]. simpl in *.
  destruct n as [ | n | n]; try lia.
  - unfold Qle. simpl. lia.
  - pose proof (double_of_pos_nonneg (- Z.neg n) d ltac:(lia)) as Hp.
    apply Qopp_le_compat in Hp. exact Hp.
Qed.

Lemma rne_half_below (p q : Z) : 0 < q -> (2 * rne p q - 1) * q <= 2 * p.
Proof.
  intros Hq. unfold rne.
  pose proof (Z.div_mod p q ltac:(lia)) as Hdm.
  pose proof (Z.mod_pos_bound p q Hq) as Hm.
  destruct ((2 * (p mod q)) ?= q) eqn:E.
  - apply Z.compare_eq in E. destruct (Z.even (p / q)); nia.
  - nia.
  - apply Z.compare_gt_iff in E. nia.
Qed.

Lemma floor_log2_below_one (n : Z) (d : positive) :
  0 < n -> n < Zpos d -> floor_log2 n d <= -1.
Proof.
  intros Hn Hd. unfold floor_log2.
  assert (Hmono : Z.log2 n <= Z.log2 (Z.pos d)) by (apply Z.log2_le_mono; lia).
  destruct (Z.eq_dec (Z.log2 n - Z.log2 (Z.pos d)) 0) as [E | E].
  - rewrite E. cbn [Z.leb Z.compare Z.pow Z.pow_pos Pos.iter].
    replace (Z.pos d * 1 <=? n) with false by (symmetry; apply Z.leb_gt; lia).
    reflexivity.
  - destruct (if 0 <=? _ then _ else _); lia.
Qed.

Lemma to_double_ge_1_inv (x : Q) :
  (1 <= to_double x)%Q -> (1 - (1 # 2 ^ 54) <= x)%Q.
Proof.
  intros H.
  destruct (Qlt_le_dec x 1) as [Hx | Hx]; [ | unfold Qle in *; simpl in *; lia].
  destruct (Qlt_le_dec 0 x) as [Hpos | Hneg].
  2:{ pose proof (to_double_nonpos x Hneg) as Hn.
      exfalso. apply (Qle_not_lt _ _ H). eapply Qle_lt_trans; [exact Hn | reflexivity]. }
  destruct x as [n d]. unfold Qlt in Hx, Hpos. cbn [Qnum Qden] in Hx, Hpos.
  unfold to_double in H. cbn [Qnum Qden] in H.
  destruct n as [ | n | n]; try lia.
  pose proof (floor_log2_below_one (Z.pos n) d ltac:(lia) ltac:(lia)) as Hl.
  unfold double_of_pos in H.
  set (e := Z.max (floor_log2 (Z.pos n) d - 52) (-1074)) in *.
  assert (He : e <= -53) by lia.
  replace (0 <=? e) with false in H by (symmetry; apply Z.leb_gt; lia).
  assert (HK : 2 ^ 53 <= 2 ^ (- e)) by (apply Z.pow_le_mono_r; lia).
  assert (HK0 : 0 < 2 ^ (- e)) by (apply Z.pow_pos_nonneg; lia).
  unfold Qle in H. cbn [Qnum Qden] in H. rewrite Z2Pos.id in H by lia.
  pose proof (rne_half_below (Z.pos n * 2 ^ (- e)) (Z.pos d) ltac:(lia)) as Hr.
  set (K := 2 ^ (- e)) in *. set (k := rne (Z.pos n * K) (Z.pos d)) in *.
  assert (H54 : 2 ^ 54 = 2 * 2 ^ 53) by reflexivity.
  unfold Qle, Qminus, Qplus, Qopp. cbn [Qnum Qden].
  change (Z.pos (2 ^ 54)) with (2 ^ 54).
  rewrite H54. set (B := 2 ^ 53) in *.
  nia.
Qed.

(** ** The throttle test *)

Lemma too_soon_iff (lrt : option Q) (now : Q) :
  too_soon lrt now = true <->
  exists t, lrt = Some t /\ ~ (t == 0)%Q /\ (double_sub now t < 1)%Q.
Proof.
  unfold too_soon, truthy. destruct lrt as [t | ].
  - rewrite andb_true_iff, negb_true_iff, Qlt_bool_iff. split.
    + intros [Hz Hlt]. exists t. repeat split; [ | exact Hlt].
      intros Hq. apply Qeq_bool_iff in Hq. congruence.
    + intros (t' & Heq & Hnz & Hlt). injection Heq as <-. split; [ | exact Hlt].
      destruct (Qeq_bool t 0) eqn:E; [ | reflexivity].
      apply Qeq_bool_iff in E. contradiction.
  - split; [discriminate | intros (t & Heq & _); discriminate].
Qed.

Lemma too_soon_false_iff (lrt : option Q) (now : Q) :
  too_soon lrt now = false <->
  forall t, lrt = Some t -> (t == 0)%Q \/ (1 <= double_sub now t)%Q.
Proof.
  split.
  - intros H t Ht.
    destruct (Qeq_dec t 0) as [Hz | Hnz]; [left; exact Hz | right].
    destruct (Qlt_le_dec (double_sub now t) 1) as [L | L]; [ | exact L].
    assert (too_soon lrt now = true) by (apply too_soon_iff; eauto).
    congruence.
  - intros H. destruct (too_soon lrt now) eqn:E; [ | reflexivity].
    apply too_soon_iff in E. destruct E as (t & Ht & Hnz & Hlt).
    destruct (H t Ht); [contradiction | lra].
Qed.

(** A stored time of [2^-60] and a request at 1.0: the double difference is
    1.0, and the request is not throttled. *)
Example double_sub_absorbs_small_time :
  (double_sub 1 (1 # 2 ^ 60) == 1)%Q /\ too_soon (Some (1 # 2 ^ 60)%Q) 1 = false.
Proof. split; reflexivity. Qed.

(** A request at least one second after the stored time is not throttled. *)
Lemma too_soon_false_after_one_second (t now : Q) :
  (1 <= now - t)%Q -> too_soon (Some t) now = false.
Proof.
  intros H. apply too_soon_false_iff. intros t' Ht'. injection Ht' as <-.
  right. apply to_double_ge_1. exact H.
Qed.

(** A request that is not throttled comes after the stored time, by one
    second less half the gap between 1 and the double below it at least. *)
Lemma too_soon_false_later (lrt : option Q) (now t : Q) :
  too_soon lrt now = false -> lrt = Some t ->
  (t == 0)%Q \/ (1 - (1 # 2 ^ 54) <= now - t)%Q.
Proof.
  intros H Ht.
  destruct (proj1 (too_soon_false_iff _ _) H t Ht) as [Hz | Hge];
    [left; exact Hz | right].
  apply to_double_ge_1_inv. exact Hge.
Qed.

(** A request less than [1 - 2^-54] seconds after a non-zero stored time is
    throttled. *)
Lemma too_soon_before_one_second (t now : Q) :
  ~ (t == 0)%Q -> (now - t < 1 - (1 # 2 ^ 54))%Q -> too_soon (Some t) now = true.
Proof.
  intros Hnz Hlt. destruct (too_soon (Some t) now) eqn:E; [reflexivity | ].
  destruct (too_soon_false_later _ _ _ E eq_refl) as [Hz | Hge];
    [contradiction | lra].
Qed.

Lemma date_neq_false_iff (a : option date) (today : date) :
  date_neq a today = false <-> a = Some today.
Proof.
  unfold date_neq. destruct a as [d | ].
  - rewrite negb_false_iff, Z.eqb_eq. split; congruence.
  - split; discriminate.
Qed.

Lemma date_neq_true_iff (a : option date) (today : date) :
  date_neq a today = true <-> a <> Some today.
Proof.
  rewrite <- date_neq_false_iff. destruct (date_neq a today); split; congruence.
Qed.

(** ** The table under UPDATE *)

Section Table.

Variable uid : Z.
Variable f : User -> User.
Hypothesis f_id : forall u, id (f u) = id u.
Hypothesis f_key : forall u, api_key (f u) = api_key u.

Lemma updated_row_id (u : User) : id (updated_row uid f u) = id u.
Proof. unfold updated_row. destruct (id u =? uid); [apply f_id | reflexivity]. Qed.

Lemma updated_row_key (u : User) : api_key (updated_row uid f u) = api_key u.
Proof. unfold updated_row. destruct (id u =? uid); [apply f_key | reflexivity]. Qed.

Lemma update_where_id_ids (db : DB) :
  map id (update_where_id uid f db) = map id db.
Proof.
  unfold update_where_id. rewrite map_map. apply map_ext.
  exact updated_row_id.
Qed.

Lemma select_by_key_update (k : string) (db : DB) :
  select_by_key k (update_where_id uid f db) =
  option_map (updated_row uid f) (select_by_key k db).
Proof.
  unfold select_by_key, update_where_id.
  induction db as [ | u db IH]; simpl; [reflexivity | ].
  rewrite updated_row_key.
  destruct (String.eqb (api_key u) k); [reflexivity | exact IH].
Qed.

Lemma select_by_id_update (i : Z) (db : DB) :
  select_by_id i (update_where_id uid f db) =
  option_map (updated_row uid f) (select_by_id i db).
Proof.
  unfold select_by_id, update_where_id.
  induction db as [ | u db IH]; simpl; [reflexivity | ].
  rewrite updated_row_id.
  destruct (id u =? i); [reflexivity | exact IH].
Qed.

End Table.

Lemma select_by_key_In (k : string) (db : DB) (r : User) :
  select_by_key k db = Some r -> In r db /\ api_key r = k.
Proof.
  intros H. apply find_some in H. destruct H as [Hin Hk].
  apply String.eqb_eq in Hk. auto.
Qed.

Lemma select_by_id_unique (db : DB) (r : User) :
  NoDup (map id db) -> In r db -> select_by_id (id r) db = Some r.
Proof.
  unfold select_by_id. induction db as [ | u db IH]; simpl; [tauto | ].
  intros Hnd [-> | Hin].
  - rewrite Z.eqb_refl. reflexivity.
  - inversion Hnd as [ | ? ? Hnotin Hnd']; subst.
    destruct (id u =? id r) eqn:E.
    + apply Z.eqb_eq in E. exfalso. apply Hnotin. rewrite E.
      apply in_map. exact Hin.
    + apply IH; assumption.
Qed.

Lemma registered_stored (db : DB) (k : string) (r : User) :
  registered db k r -> stored db r.
Proof.
  intros (_ & Hk & Hnd). apply select_by_key_In in Hk.
  apply select_by_id_unique; tauto.
Qed.

Lemma set_reset_id today now u : id (set_reset today now u) = id u.
Proof. reflexivity. Qed.
Lemma set_incr_id now u : id (set_incr now u) = id u.
Proof. reflexivity. Qed.
Lemma committed_id today now u : id (committed today now u) = id u.
Proof. unfold committed. destruct (date_neq _ _); reflexivity. Qed.
Lemma committed_key today now u : api_key (committed today now u) = api_key u.
Proof. unfold committed. destruct (date_neq _ _); reflexivity. Qed.
Lemma committed_plan today now u : plan (committed today now u) = plan u.
Proof. unfold committed. destruct (date_neq _ _); reflexivity. Qed.
Lemma fetched_view_id today u : id (fetched_view today u) = id u.
Proof. unfold fetched_view. destruct (_ && _); reflexivity. Qed.

(** An accepted request rewrites the caller's row to [committed] and keeps
    the caller registered. *)
Lemma registered_update (db : DB) (k : string) (r : User) (f : User -> User) :
  (forall u, id (f u) = id u) ->
  (forall u, api_key (f u) = api_key u) ->
  registered db k r ->
  registered (update_where_id (id r) f db) k (f r).
Proof.
  intros Hid Hkey (Hne & Hk & Hnd). repeat split.
  - exact Hne.
  - rewrite select_by_key_update by assumption. rewrite Hk. simpl.
    unfold updated_row. rewrite Z.eqb_refl. reflexivity.
  - rewrite update_where_id_ids by assumption. exact Hnd.
Qed.

Lemma select_other_update (db : DB) (uid : Z) (f : User -> User) (u : User) :
  (forall x, id (f x) = id x) ->
  id u <> uid ->
  select_by_id (id u) db = Some u ->
  select_by_id (id u) (update_where_id uid f db) = Some u.
Proof.
  intros Hid Hne Hsel. rewrite select_by_id_update by assumption.
  rewrite Hsel. simpl. unfold updated_row.
  apply Z.eqb_neq in Hne. rewrite Hne. reflexivity.
Qed.

(** ** The gate on a registered caller *)

Lemma usage_update_id today now r u : id (usage_update today now r u) = id u.
Proof. unfold usage_update. destruct (date_neq _ _); reflexivity. Qed.

Lemma usage_update_key today now r u :
  api_key (usage_update today now r u) = api_key u.
Proof. unfold usage_update. destruct (date_neq _ _); reflexivity. Qed.

Lemma usage_update_self today now r :
  usage_update today now r r = committed today now r.
Proof. unfold usage_update, committed. destruct (date_neq _ _); reflexivity. Qed.

(** What [verify_api_key] does for a registered caller: the quota pre-check,
    then the throttle, then the UPDATE. *)
Lemma verify_api_key_registered (c : Clock) (db : DB) (k : string) (r : User) :
  registered db k r ->
  verify_api_key c (Some k) db =
    if quota_reached (verify_today c) r then (Raise QuotaExceeded, db)
    else if too_soon (last_request_time r) (now_ts c) then (Raise RateLimited, db)
    else (Ok (fetched_view (verify_today c) r),
          update_where_id (id r) (usage_update (update_today c) (now_ts c) r) db).
Proof.
  intros Hreg. pose proof (registered_stored _ _ _ Hreg) as Hst.
  destruct Hreg as (Hne & Hk & _). unfold stored in Hst.
  destruct k as [ | a k']; [congruence | ].
  unfold verify_api_key, bind, get_user_from_db. rewrite Hk.
  unfold check_quota, quota_reached, fetched_view, effective_requests_today.
  destruct (String.eqb (plan r) "free"); simpl.
  - destruct (date_neq (last_request_date r) (verify_today c)) eqn:Ed; simpl.
    + unfold ret, update_user_usage. simpl. rewrite Hst.
      unfold commit_usage, usage_update.
      destruct (too_soon _ _); [reflexivity | ].
      destruct (date_neq (last_request_date r) (update_today c)); reflexivity.
    + destruct (DAILY_LIMIT <=? requests_today r); [reflexivity | ].
      unfold ret, update_user_usage. rewrite Hst.
      unfold commit_usage, usage_update.
      destruct (too_soon _ _); [reflexivity | ].
      destruct (date_neq (last_request_date r) (update_today c)); reflexivity.
  - unfold ret, update_user_usage. rewrite Hst.
    unfold commit_usage, usage_update.
    destruct (too_soon _ _); [reflexivity | ].
    destruct (date_neq (last_request_date r) (update_today c)); reflexivity.
Qed.

(** After an accepted request the caller is registered with the committed row. *)
Lemma registered_committed (db : DB) (k : string) (r : User) (today : date) (now : Q) :
  registered db k r ->
  registered (update_where_id (id r) (usage_update today now r) db) k
             (committed today now r).
Proof.
  intros Hreg. rewrite <- usage_update_self.
  apply registered_update; [apply usage_update_id | apply usage_update_key | exact Hreg].
Qed.

(** The three outcomes of a request on the day [today]. *)
Lemma verify_api_key_cases (db : DB) (k : string) (r : User) (today : date) (now : Q) :
  registered db k r ->
  (quota_reached today r = true /\
   verify_api_key (at_time today now) (Some k) db = (Raise QuotaExceeded, db))
  \/
  (quota_reached today r = false /\ too_soon (last_request_time r) now = true /\
   verify_api_key (at_time today now) (Some k) db = (Raise RateLimited, db))
  \/
  (quota_reached today r = false /\ too_soon (last_request_time r) now = false /\
   exists db',
     verify_api_key (at_time today now) (Some k) db = (Ok (fetched_view today r), db')
     /\ registered db' k (committed today now r)
     /\ (forall u, id u <> id r -> stored db u -> stored db' u)).
Proof.
  intros Hreg. rewrite (verify_api_key_registered _ _ _ _ Hreg). simpl.
  destruct (quota_reached today r); [left; auto | right].
  destruct (too_soon (last_request_time r) now); [left; auto | right].
  repeat split. eexists. split; [reflexivity | ]. split.
  - apply registered_committed. exact Hreg.
  - intros u Hne Hu. unfold stored in *.
    apply select_other_update; [apply usage_update_id | exact Hne | exact Hu].
Qed.

(** ** Rejection kinds *)

Lemma RateLimited_neq_QuotaExceeded : RateLimited <> QuotaExceeded.
Proof. unfold RateLimited, QuotaExceeded, MSG_RATE, MSG_QUOTA. discriminate. Qed.

Lemma quota_reached_true_iff (today : date) (r : User) :
  quota_reached today r = true <->
  plan r = "free" /\ DAILY_LIMIT <= effective_requests_today today r.
Proof.
  unfold quota_reached. rewrite andb_true_iff, String.eqb_eq, Z.leb_le. tauto.
Qed.

Lemma quota_reached_false_iff (today : date) (r : User) :
  quota_reached today r = false <->
  ~ (plan r = "free" /\ DAILY_LIMIT <= effective_requests_today today r).
Proof.
  rewrite <- quota_reached_true_iff. destruct (quota_reached today r); split; congruence.
Qed.

(** ** C1: order of the two checks *)

(** C1, as stated, fails: a FREE row with 20 requests counted today whose
    last request was half a second ago is rejected with QuotaExceeded, not
    with RateLimited. *)
Lemma C1_quota_reported_not_rate :
  let r := free_row 20 (Some 100) (Some (1000 # 1)) in
  let now := (2001 # 2)%Q in
  registered [r] "key-7" r /\
  plan r = "free" /\
  20 <= effective_requests_today 100 r /\
  (now - 1000 < 1)%Q /\
  verify_api_key (at_time 100 now) (Some "key-7") [r] = (Raise QuotaExceeded, [r]) /\
  fst (verify_api_key (at_time 100 now) (Some "key-7") [r]) <> Raise RateLimited.
Proof.
  repeat split; try discriminate.
  simpl. constructor; [simpl; tauto | constructor].
Qed.

(** C1 (amended): the daily quota is evaluated before the rate limit and the
    first failing check wins.  A FREE row whose effective counter is at least
    20 is rejected with QuotaExceeded whatever the time since its last
    request; a row that passes the quota check and has a non-zero last
    request time is rejected with RateLimited when the difference
    [now - last_request_time], computed in double precision as the code
    computes it, is below 1 -- which it is whenever the exact elapsed time
    is below [1 - 2^-54] seconds.  Neither rejection writes to the table. *)
Theorem C1_quota_checked_before_rate
  (db : DB) (k : string) (r : User) (today : date) (now : Q) :
  registered db k r ->
  (plan r = "free" -> DAILY_LIMIT <= effective_requests_today today r ->
   verify_api_key (at_time today now) (Some k) db = (Raise QuotaExceeded, db))
  /\
  (~ (plan r = "free" /\ DAILY_LIMIT <= effective_requests_today today r) ->
   forall t, last_request_time r = Some t -> ~ (t == 0)%Q ->
   ((double_sub now t < 1)%Q \/ (now - t < 1 - (1 # 2 ^ 54))%Q) ->
   verify_api_key (at_time today now) (Some k) db = (Raise RateLimited, db)).
Proof.
  intros Hreg. rewrite (verify_api_key_registered _ _ _ _ Hreg). simpl. split.
  - intros Hp Hq.
    assert (E : quota_reached today r = true) by (apply quota_reached_true_iff; auto).
    rewrite E. reflexivity.
  - intros Hq t Ht Hnz Hlt.
    apply quota_reached_false_iff in Hq. rewrite Hq.
    assert (E : too_soon (last_request_time r) now = true).
    { rewrite Ht. destruct Hlt as [Hlt | Hlt].
      - apply too_soon_iff; eauto.
      - apply too_soon_before_one_second; assumption. }
    rewrite E. reflexivity.
Qed.

Lemma C1_quota_checked_before_rate_witness :
  let r := free_row 20 (Some 100) (Some (1000 # 1)) in
  let p := pro_row 3 (Some 100) (Some (1000 # 1)) in
  registered [r] "key-7" r /\ registered [p] "key-8" p /\
  verify_api_key (at_time 100 (2001 # 2)) (Some "key-7") [r]
  = (Raise QuotaExceeded, [r]) /\
  verify_api_key (at_time 100 (2001 # 2)) (Some "key-8") [p]
  = (Raise RateLimited, [p]).
Proof.
  assert (Hr : registered [free_row 20 (Some 100) (Some (1000 # 1))] "key-7"
                 (free_row 20 (Some 100) (Some (1000 # 1))))
    by concrete_registered.
  assert (Hp : registered [pro_row 3 (Some 100) (Some (1000 # 1))] "key-8"
                 (pro_row 3 (Some 100) (Some (1000 # 1))))
    by concrete_registered.
  intros r p. split; [exact Hr | ]. split; [exact Hp | ]. split.
  - apply (proj1 (C1_quota_checked_before_rate _ "key-7" _ 100 (2001 # 2) Hr));
      [reflexivity | discriminate].
  - apply (proj2 (C1_quota_checked_before_rate _ "key-8" _ 100 (2001 # 2) Hp))
      with (t := (1000 # 1)%Q);
      [intros [H _]; discriminate H | reflexivity | discriminate
      | left; reflexivity].
Defined.

(** ** C2: the one-second threshold *)

(** C2, as stated, fails on two rows whose last request is less than one
    second old: a FREE row over quota is rejected with QuotaExceeded, and a
    row whose stored timestamp is 0.0 is accepted. *)
Lemma C2_not_rate_limited_within_one_second :
  (let r := free_row 20 (Some 100) (Some (1000 # 1)) in
   let now := (2001 # 2)%Q in
   last_request_time r = Some (1000 # 1) /\ (now - 1000 < 1)%Q /\
   fst (verify_api_key (at_time 100 now) (Some "key-7") [r]) <> Raise RateLimited)
  /\
  (let r := pro_row 3 (Some 100) (Some 0%Q) in
   let now := (1 # 2)%Q in
   last_request_time r = Some 0%Q /\ (now - 0 < 1)%Q /\
   verify_api_key (at_time 100 now) (Some "key-8") [r]
   = (Ok r, [pro_row 4 (Some 100) (Some now)])).
Proof.
  repeat split; discriminate.
Qed.

(** C2 (amended): for every row that passes the daily-quota check and whose
    [last_request_time] is present and not 0.0, the request is rejected with
    RateLimited if and only if the difference [now - last_request_time],
    computed in double precision as the code computes it, is strictly less
    than 1, and that rejection leaves the table as it was.  In exact time:
    an elapsed time below [1 - 2^-54] seconds is rejected, an elapsed time
    of one second or more (exactly 1.000 s included) is accepted, and where
    the double subtraction is exact the request is rejected if and only if
    the elapsed time is strictly less than one second. *)
Theorem C2_rate_limited_iff_under_one_second
  (db : DB) (k : string) (r : User) (today : date) (now t : Q) :
  registered db k r ->
  ~ (plan r = "free" /\ DAILY_LIMIT <= effective_requests_today today r) ->
  last_request_time r = Some t ->
  ~ (t == 0)%Q ->
  (fst (verify_api_key (at_time today now) (Some k) db) = Raise RateLimited
   <-> (double_sub now t < 1)%Q)
  /\
  ((double_sub now t < 1)%Q ->
   verify_api_key (at_time today now) (Some k) db = (Raise RateLimited, db))
  /\
  ((now - t < 1 - (1 # 2 ^ 54))%Q ->
   verify_api_key (at_time today now) (Some k) db = (Raise RateLimited, db))
  /\
  ((1 <= now - t)%Q ->
   is_Ok (fst (verify_api_key (at_time today now) (Some k) db)) = true)
  /\
  ((now - t == 1)%Q ->
   is_Ok (fst (verify_api_key (at_time today now) (Some k) db)) = true)
  /\
  ((double_sub now t == now - t)%Q ->
   (fst (verify_api_key (at_time today now) (Some k) db) = Raise RateLimited
    <-> (now - t < 1)%Q)).
Proof.
  intros Hreg Hq Ht Hnz.
  rewrite (verify_api_key_registered _ _ _ _ Hreg). simpl.
  apply quota_reached_false_iff in Hq. rewrite Hq.
  destruct (too_soon (last_request_time r) now) eqn:E.
  - pose proof E as E'.
    apply too_soon_iff in E. destruct E as (t' & Ht' & _ & Hlt).
    assert (t' = t) by congruence. subst t'.
    rewrite Ht in E'.
    assert (Hno : ~ (1 <= now - t)%Q).
    { intros Hge. rewrite (too_soon_false_after_one_second _ _ Hge) in E'.
      discriminate. }
    cbn [fst]. split; [tauto | ]. split; [auto | ]. split; [auto | ].
    split; [intros Hge; contradiction | ].
    split; [intros Heq; exfalso; apply Hno; lra | ].
    intros Hex. rewrite Hex in Hlt. tauto.
  - pose proof (proj1 (too_soon_false_iff _ _) E t Ht) as [Hz | Hge];
      [contradiction | ].
    cbn [fst is_Ok].
    split; [split; [discriminate | intros Hlt; lra] | ].
    split; [intros Hlt; lra | ].
    split.
    { intros Hlt. rewrite Ht in E.
      rewrite (too_soon_before_one_second _ _ Hnz Hlt) in E. discriminate. }
    split; [reflexivity | ]. split; [reflexivity | ].
    intros Hex. rewrite Hex in Hge. split; [discriminate | intros Hlt; lra].
Qed.

Lemma C2_rate_limited_iff_under_one_second_witness :
  let r := pro_row 3 (Some 100) (Some (1000 # 1)) in
  registered [r] "key-8" r /\
  (fst (verify_api_key (at_time 100 (1001 # 1)) (Some "key-8") [r]) = Raise RateLimited
   <-> (double_sub (1001 # 1) (1000 # 1) < 1)%Q) /\
  (((1001 # 1) - (1000 # 1) == 1)%Q ->
   is_Ok (fst (verify_api_key (at_time 100 (1001 # 1)) (Some "key-8") [r])) = true) /\
  ((double_sub (1001 # 1) (1000 # 1) == (1001 # 1) - (1000 # 1))%Q ->
   (fst (verify_api_key (at_time 100 (1001 # 1)) (Some "key-8") [r]) = Raise RateLimited
    <-> ((1001 # 1) - (1000 # 1) < 1)%Q)).
Proof.
  assert (Hreg : registered [pro_row 3 (Some 100) (Some (1000 # 1))] "key-8"
                   (pro_row 3 (Some 100) (Some (1000 # 1))))
    by concrete_registered.
  assert (Hq : ~ (plan (pro_row 3 (Some 100) (Some (1000 # 1))) = "free" /\
                  DAILY_LIMIT <= effective_requests_today 100
                                   (pro_row 3 (Some 100) (Some (1000 # 1)))))
    by (intros [Hp _]; discriminate Hp).
  assert (Hnz : ~ ((1000 # 1) == 0)%Q) by (intros Hz; discriminate Hz).
  destruct (C2_rate_limited_iff_under_one_second
              [pro_row 3 (Some 100) (Some (1000 # 1))] "key-8"
              (pro_row 3 (Some 100) (Some (1000 # 1))) 100 (1001 # 1) (1000 # 1)
              Hreg Hq eq_refl Hnz)
    as (H1 & _ & _ & _ & H5 & H6).
  intros r. split; [exact Hreg | ]. split; [exact H1 | ].
  split; [exact H5 | exact H6].
Defined.

(** ** C3: the daily quota of the free plan *)

Lemma serve_length (k : option string) (cs : list Clock) (db : DB) :
  List.length (fst (serve k cs db)) = List.length cs.
Proof.
  revert db. induction cs as [ | c cs IH]; intros db; simpl; [reflexivity | ].
  destruct (verify_api_key c k db) as [o db1].
  specialize (IH db1). destruct (serve k cs db1) as [os db2].
  simpl in *. congruence.
Qed.

Lemma effective_committed (today : date) (now : Q) (r : User) :
  effective_requests_today today (committed today now r)
  = effective_requests_today today r + 1.
Proof.
  unfold effective_requests_today, committed.
  destruct (date_neq (last_request_date r) today) eqn:E; simpl.
  - rewrite Z.eqb_refl. reflexivity.
  - rewrite E. reflexivity.
Qed.

Lemma committed_time (today : date) (now : Q) (r : User) :
  last_request_time (committed today now r) = Some now.
Proof. unfold committed. destruct (date_neq _ _); reflexivity. Qed.

Lemma committed_date (today : date) (now : Q) (r : User) :
  last_request_date (committed today now r) = Some today.
Proof.
  unfold committed. destruct (date_neq _ _) eqn:E; simpl; [reflexivity | ].
  apply date_neq_false_iff. exact E.
Qed.

Lemma committed_count (today : date) (now : Q) (r : User) :
  requests_today (committed today now r) = effective_requests_today today r + 1.
Proof.
  unfold committed, effective_requests_today.
  destruct (date_neq _ _); reflexivity.
Qed.

Lemma serve_free_budget (k : string) (today : date) (ts : list Q) :
  forall (budget : nat) (db : DB) (r : User),
    registered db k r ->
    plan r = "free" ->
    effective_requests_today today r = DAILY_LIMIT - Z.of_nat budget ->
    (budget <> O ->
     match ts with
     | t :: _ => too_soon (last_request_time r) t = false
     | [] => True
     end) ->
    spaced ts ->
    quota_pattern budget (fst (serve (Some k) (map (at_time today) ts) db)).
Proof.
  induction ts as [ | t ts IH]; intros budget db r Hreg Hplan Heff Hfirst Hsp;
    [exact I | ].
  cbn [map serve].
  destruct (verify_api_key_cases db k r today t Hreg)
    as [(Hq & Hv) | [(Hq & Hs & Hv) | (Hq & Hs & db' & Hv & Hreg' & _)]].
  - (* over quota *)
    rewrite Hv. apply quota_reached_true_iff in Hq. destruct Hq as [_ Hq].
    assert (budget = O) by (unfold DAILY_LIMIT in *; lia). subst budget.
    specialize (IH O db r Hreg Hplan Heff).
    destruct (serve (Some k) (map (at_time today) ts) db) as [os db2].
    cbn [fst quota_pattern] in *. split; [reflexivity | ].
    apply IH; [congruence | ].
    destruct ts as [ | t2 ts']; [exact I | apply Hsp].
  - (* throttled: impossible here *)
    apply quota_reached_false_iff in Hq.
    assert (budget <> O) by (intros ->; apply Hq; split; [assumption | unfold DAILY_LIMIT in *; simpl in Heff; lia]).
    rewrite (Hfirst H) in Hs. discriminate.
  - (* accepted *)
    rewrite Hv. apply quota_reached_false_iff in Hq.
    destruct budget as [ | b];
      [exfalso; apply Hq; split; [assumption | unfold DAILY_LIMIT in *; simpl in Heff; lia] | ].
    specialize (IH b db' (committed today t r) Hreg').
    destruct (serve (Some k) (map (at_time today) ts) db') as [os db2].
    cbn [fst quota_pattern] in *. split; [reflexivity | ].
    apply IH.
    + rewrite committed_plan. exact Hplan.
    + rewrite effective_committed. unfold DAILY_LIMIT in *. lia.
    + intros _. destruct ts as [ | t2 ts']; [exact I | ].
      rewrite committed_time. apply too_soon_false_after_one_second.
      apply Hsp.
    + destruct ts as [ | t2 ts']; [exact I | apply Hsp].
Qed.

Lemma quota_pattern_last (b : nat) :
  forall outs, quota_pattern b outs -> List.length outs = S b ->
  exists us, List.length us = b /\ outs = (map Ok us ++ [Raise QuotaExceeded])%list.
Proof.
  induction b as [ | b IH]; intros outs Hp Hlen.
  - destruct outs as [ | o [ | o' os]]; try discriminate.
    exists []. simpl in *. destruct Hp as [-> _]. auto.
  - destruct outs as [ | o os]; [discriminate | ].
    simpl in Hp, Hlen. destruct Hp as [Hok Hp].
    destruct (IH os Hp) as (us & Hl & ->); [lia | ].
    destruct o as [u | e]; [ | discriminate].
    exists (u :: us). simpl. split; [lia | reflexivity].
Qed.

(** C3: a FREE row whose effective counter is at least 20 is rejected with
    QuotaExceeded and the table is left as it was; and a fresh FREE caller
    (counter 0, no last request time) who sends 21 requests on one day, each
    at least one second after the previous one, gets 20 accepted requests
    followed by a QuotaExceeded rejection. *)
Theorem C3_free_quota_of_twenty
  (db : DB) (k : string) (r : User) (today : date) :
  registered db k r ->
  plan r = "free" ->
  (forall now, DAILY_LIMIT <= effective_requests_today today r ->
     verify_api_key (at_time today now) (Some k) db = (Raise QuotaExceeded, db))
  /\
  (requests_today r = 0 -> last_request_time r = None ->
   forall ts, List.length ts = 21%nat -> spaced ts ->
   exists us, List.length us = 20%nat /\
     fst (serve (Some k) (map (at_time today) ts) db)
     = (map Ok us ++ [Raise QuotaExceeded])%list).
Proof.
  intros Hreg Hplan. split.
  - intros now Hq. rewrite (verify_api_key_registered _ _ _ _ Hreg). simpl.
    assert (E : quota_reached today r = true) by (apply quota_reached_true_iff; auto).
    rewrite E. reflexivity.
  - intros Hzero Hnone ts Hlen Hsp.
    apply (quota_pattern_last 20).
    + apply (serve_free_budget k today ts 20 db r Hreg Hplan); [ | | exact Hsp].
      * unfold effective_requests_today. rewrite Hzero.
        destruct (date_neq _ _); reflexivity.
      * intros _. destruct ts; [exact I | ]. rewrite Hnone. reflexivity.
    + rewrite serve_length, List.length_map. exact Hlen.
Qed.

Lemma C3_free_quota_of_twenty_witness :
  let r := free_row 0 None None in
  registered [r] "key-7" r /\ plan r = "free" /\
  List.length two_seconds_apart = 21%nat /\ spaced two_seconds_apart /\
  exists us, List.length us = 20%nat /\
    fst (serve (Some "key-7") (map (at_time 100) two_seconds_apart) [r])
    = (map Ok us ++ [Raise QuotaExceeded])%list.
Proof.
  assert (Hreg : registered [free_row 0 None None] "key-7" (free_row 0 None None))
    by concrete_registered.
  assert (Hsp : spaced two_seconds_apart)
    by (simpl; repeat split; vm_compute; discriminate).
  intros r. split; [exact Hreg | ]. split; [reflexivity | ].
  split; [reflexivity | ]. split; [exact Hsp | ].
  apply (proj2 (C3_free_quota_of_twenty [free_row 0 None None] "key-7"
                  (free_row 0 None None) 100 Hreg eq_refl));
    [reflexivity | reflexivity | reflexivity | exact Hsp].
Defined.

(** ** C4: what an accepted request writes *)

(** C4: a row whose [last_request_date] is not today passes the quota check
    whatever its counter, and an accepted request stores counter 1, today's
    date and [now]; a row dated today gets its counter incremented by one and
    [now] as last request time, its date unchanged. *)
Theorem C4_commit_resets_or_increments
  (db : DB) (k : string) (r : User) (today : date) (now : Q) :
  registered db k r ->
  (last_request_date r <> Some today ->
   too_soon (last_request_time r) now = false ->
   is_Ok (fst (verify_api_key (at_time today now) (Some k) db)) = true)
  /\
  (forall u db',
     verify_api_key (at_time today now) (Some k) db = (Ok u, db') ->
     exists r',
       select_by_id (id r) db' = Some r' /\ select_by_key k db' = Some r' /\
       last_request_time r' = Some now /\
       (last_request_date r <> Some today ->
        requests_today r' = 1 /\ last_request_date r' = Some today) /\
       (last_request_date r = Some today ->
        requests_today r' = requests_today r + 1 /\
        last_request_date r' = last_request_date r)).
Proof.
  intros Hreg. split.
  - intros Hd Hs. rewrite (verify_api_key_registered _ _ _ _ Hreg). simpl.
    apply date_neq_true_iff in Hd.
    unfold quota_reached, effective_requests_today. rewrite Hd, Hs.
    rewrite andb_false_r. reflexivity.
  - intros u db' Hv.
    destruct (verify_api_key_cases db k r today now Hreg)
      as [(_ & Hv') | [(_ & _ & Hv') | (_ & _ & db1 & Hv' & Hreg' & _)]];
      rewrite Hv in Hv'; try discriminate.
    injection Hv' as _ <-.
    exists (committed today now r). repeat split.
    + pose proof (registered_stored _ _ _ Hreg') as Hst. unfold stored in Hst.
      rewrite committed_id in Hst. exact Hst.
    + apply Hreg'.
    + apply committed_time.
    + apply date_neq_true_iff in H. unfold committed. rewrite H. reflexivity.
    + apply committed_date.
    + apply date_neq_false_iff in H. unfold committed. rewrite H. reflexivity.
    + apply date_neq_false_iff in H. unfold committed. rewrite H. reflexivity.
Qed.

(** The scenario of the specification: a FREE caller whose last request was
    yesterday with a counter of 20. *)
Lemma C4_commit_resets_or_increments_witness :
  let r := free_row 20 (Some 99) (Some (1000 # 1)) in
  let v := verify_api_key (at_time 100 (5000 # 1)) (Some "key-7") [r] in
  registered [r] "key-7" r /\
  last_request_date r <> Some 100 /\
  too_soon (last_request_time r) (5000 # 1) = false /\
  is_Ok (fst v) = true /\
  exists r',
    select_by_id (id r) (snd v) = Some r' /\
    requests_today r' = 1 /\ last_request_date r' = Some 100 /\
    last_request_time r' = Some (5000 # 1).
Proof.
  assert (Hreg : registered [free_row 20 (Some 99) (Some (1000 # 1))] "key-7"
                   (free_row 20 (Some 99) (Some (1000 # 1))))
    by concrete_registered.
  intros r v. split; [exact Hreg | ]. split; [discriminate | ].
  split; [reflexivity | ]. split.
  - apply (proj1 (C4_commit_resets_or_increments _ "key-7" _ 100 (5000 # 1) Hreg));
      [discriminate | reflexivity].
  - destruct (proj2 (C4_commit_resets_or_increments _ "key-7" _ 100 (5000 # 1) Hreg)
                (free_row 0 (Some 99) (Some (1000 # 1))) (snd v))
      as (r' & Hsel & _ & Ht & Hreset & _).
    + reflexivity.
    + destruct Hreset as [Hc Hd]; [discriminate | ].
      exists r'. split; [exact Hsel | ]. split; [exact Hc | ]. split; [exact Hd | exact Ht].
Defined.

(** ** C5: the pro plan *)

(** C5: a PRO row is never rejected with QuotaExceeded, whatever its counter:
    it is rejected with RateLimited when its last request is less than one
    second old, and accepted otherwise. *)
Theorem C5_pro_never_quota_limited
  (db : DB) (k : string) (r : User) (today : date) (now : Q) :
  registered db k r ->
  plan r = "pro" ->
  fst (verify_api_key (at_time today now) (Some k) db) <> Raise QuotaExceeded
  /\
  (too_soon (last_request_time r) now = true ->
   verify_api_key (at_time today now) (Some k) db = (Raise RateLimited, db))
  /\
  (too_soon (last_request_time r) now = false ->
   exists db',
     verify_api_key (at_time today now) (Some k) db = (Ok r, db') /\
     select_by_id (id r) db' = Some (committed today now r)).
Proof.
  intros Hreg Hplan.
  rewrite (verify_api_key_registered _ _ _ _ Hreg). simpl.
  unfold quota_reached, fetched_view. rewrite Hplan. simpl.
  destruct (too_soon (last_request_time r) now); cbn [fst];
    (split; [ | split]); try discriminate; try reflexivity.
  intros _. eexists. split; [reflexivity | ].
  pose proof (registered_stored _ _ _ (registered_committed _ _ _ today now Hreg)) as Hst.
  unfold stored in Hst. rewrite committed_id in Hst. exact Hst.
Qed.

Lemma C5_pro_never_quota_limited_witness :
  let r := pro_row 1000 (Some 100) (Some (1000 # 1)) in
  registered [r] "key-8" r /\ plan r = "pro" /\
  too_soon (last_request_time r) (5000 # 1) = false /\
  exists db',
    verify_api_key (at_time 100 (5000 # 1)) (Some "key-8") [r] = (Ok r, db') /\
    select_by_id (id r) db' = Some (committed 100 (5000 # 1) r).
Proof.
  assert (Hreg : registered [pro_row 1000 (Some 100) (Some (1000 # 1))] "key-8"
                   (pro_row 1000 (Some 100) (Some (1000 # 1))))
    by concrete_registered.
  intros r. split; [exact Hreg | ]. split; [reflexivity | ].
  split; [reflexivity | ].
  apply (proj2 (proj2 (C5_pro_never_quota_limited _ "key-8" _ 100 (5000 # 1)
                         Hreg eq_refl))).
  reflexivity.
Defined.

(** ** C10: the quota is gated on the literal plan "free" *)

(** C10: when the row the credential selects has a plan other than the exact
    string "free", the request is never rejected with QuotaExceeded, whatever
    the counter, the clock and the rest of the table. *)
Theorem C10_quota_only_for_literal_free
  (c : Clock) (db : DB) (k : string) (r : User) :
  select_by_key k db = Some r ->
  plan r <> "free" ->
  fst (verify_api_key c (Some k) db) <> Raise QuotaExceeded.
Proof.
  intros Hk Hplan.
  apply String.eqb_neq in Hplan.
  unfold verify_api_key. destruct k as [ | a k']; [discriminate | ].
  unfold bind, get_user_from_db. rewrite Hk.
  unfold check_quota. rewrite Hplan. unfold ret, update_user_usage.
  destruct (select_by_id (id r) db) as [u | ]; [ | discriminate].
  unfold commit_usage.
  destruct (too_soon _ _); [simpl | ].
  - intros H. injection H as H. discriminate H.
  - destruct (date_neq _ _); discriminate.
Qed.

Lemma C10_quota_only_for_literal_free_witness :
  let r := mkUser 9 "key-9" "FREE" 1000 (Some 100) None in
  select_by_key "key-9" [r] = Some r /\ plan r <> "free" /\
  fst (verify_api_key (at_time 100 (5000 # 1)) (Some "key-9") [r])
  <> Raise QuotaExceeded.
Proof.
  intros r. split; [reflexivity | ]. split; [discriminate | ].
  apply (C10_quota_only_for_literal_free (at_time 100 (5000 # 1))
           [mkUser 9 "key-9" "FREE" 1000 (Some 100) None] "key-9"
           (mkUser 9 "key-9" "FREE" 1000 (Some 100) None));
    [reflexivity | discriminate].
Defined.

(** ** C7: authentication comes first *)

Lemma select_by_key_absent (k : string) (db : DB) :
  (forall u, In u db -> api_key u <> k) -> select_by_key k db = None.
Proof.
  unfold select_by_key. induction db as [ | u db IH]; intros H; simpl; [reflexivity | ].
  destruct (String.eqb (api_key u) k) eqn:E.
  - apply String.eqb_eq in E. exfalso. apply (H u); [left; reflexivity | exact E].
  - apply IH. intros v Hv. apply H. right. exact Hv.
Qed.

(** C7: a missing or empty credential, or one that matches no stored row,
    fails with an HTTP 401 exception whatever the clock and the counters of
    the stored rows, writes nothing to the table and never reaches the
    summarisation pipeline; and the exceptions for a bad credential, a
    throttled request and an exhausted quota are pairwise different. *)
Theorem C7_unauthenticated_before_gate
  (c : Clock) (db : DB) (key : option string) :
  (key = None \/ key = Some "" \/
   exists k, key = Some k /\ forall u, In u db -> api_key u <> k) ->
  (exists msg,
     verify_api_key c key db = (Raise (HTTPException 401 msg), db) /\
     forall SUMMARIZER req,
       resumage SUMMARIZER c key req db = (Raise (HTTPException 401 msg), db, []))
  /\
  (Unauthenticated_missing <> RateLimited /\
   Unauthenticated_missing <> QuotaExceeded /\
   Unauthenticated_invalid <> RateLimited /\
   Unauthenticated_invalid <> QuotaExceeded /\
   RateLimited <> QuotaExceeded).
Proof.
  intros H. split; [ | repeat split; discriminate].
  destruct H as [-> | [-> | (k & -> & Habs)]].
  - exists MSG_MISSING. split; [reflexivity | intros; reflexivity].
  - exists MSG_MISSING. split; [reflexivity | intros; reflexivity].
  - destruct k as [ | a k'].
    + exists MSG_MISSING. split; [reflexivity | intros; reflexivity].
    + exists MSG_INVALID.
      assert (E : verify_api_key c (Some (String a k')) db
                  = (Raise (HTTPException 401 MSG_INVALID), db)).
      { unfold verify_api_key, bind, get_user_from_db.
        rewrite (select_by_key_absent _ _ Habs). reflexivity. }
      split; [exact E | ]. intros S req. unfold resumage. rewrite E. reflexivity.
Qed.

Lemma C7_unauthenticated_before_gate_witness :
  let db := [free_row 20 (Some 100) (Some (1000 # 1))] in
  (exists k, Some "stranger" = Some k /\ forall u, In u db -> api_key u <> k) /\
  exists msg,
    verify_api_key (at_time 100 (2001 # 2)) (Some "stranger") db
    = (Raise (HTTPException 401 msg), db).
Proof.
  assert (H : exists k, Some "stranger" = Some k /\
                forall u, In u [free_row 20 (Some 100) (Some (1000 # 1))] ->
                          api_key u <> k).
  { exists "stranger". split; [reflexivity | ].
    intros u [<- | []]. discriminate. }
  intros db. split; [exact H | ].
  destruct (proj1 (C7_unauthenticated_before_gate (at_time 100 (2001 # 2))
                     [free_row 20 (Some 100) (Some (1000 # 1))] (Some "stranger")
                     (or_intror (or_intror H)))) as (msg & Hv & _).
  exists msg. exact Hv.
Defined.

(** ** C9: the pipeline runs after admission and does not undo it *)

(** C9: the summarisation pipeline is invoked only when [verify_api_key]
    accepted the request; and when it then fails, the endpoint fails with the
    pipeline's exception while the table keeps the update of the accepted
    request: the counter counts it and the last request time is [now]. *)
Theorem C9_pipeline_after_admission_no_rollback
  (SUMMARIZER : string -> Z -> Z -> result string)
  (c : Clock) (key : option string) (req : TexteReq) (db : DB) :
  (forall out db' calls,
     resumage SUMMARIZER c key req db = (out, db', calls) ->
     calls <> [] ->
     exists user, verify_api_key c key db = (Ok user, db'))
  /\
  (forall k r today now user dbv e,
     key = Some k -> c = at_time today now -> registered db k r ->
     verify_api_key c key db = (Ok user, dbv) ->
     SUMMARIZER (content req) (max_length req) (min_length req) = Raise e ->
     resumage SUMMARIZER c key req db = (Raise e, dbv, [req]) /\
     exists r',
       select_by_id (id r) dbv = Some r' /\
       requests_today r' = effective_requests_today today r + 1 /\
       last_request_date r' = Some today /\
       last_request_time r' = Some now).
Proof.
  split.
  - intros out db' calls. unfold resumage.
    destruct (verify_api_key c key db) as [[user | e] dbv].
    + destruct (SUMMARIZER _ _ _); intros H _; injection H as _ <- _; eauto.
    + intros H Hc. injection H as _ _ <-. contradiction.
  - intros k r today now user dbv e -> -> Hreg Hv HS.
    split; [unfold resumage; rewrite Hv, HS; reflexivity | ].
    destruct (verify_api_key_cases db k r today now Hreg)
      as [(_ & Hv') | [(_ & _ & Hv') | (_ & _ & db1 & Hv' & Hreg' & _)]];
      rewrite Hv in Hv'; try discriminate.
    injection Hv' as _ <-.
    exists (committed today now r).
    pose proof (registered_stored _ _ _ Hreg') as Hst. unfold stored in Hst.
    rewrite committed_id in Hst.
    split; [exact Hst | ]. split; [apply committed_count | ].
    split; [apply committed_date | apply committed_time].
Qed.

Lemma C9_pipeline_after_admission_no_rollback_witness :
  let r := free_row 3 (Some 100) (Some (1000 # 1)) in
  let req := mkTexteReq "some long text" 130 30 in
  registered [r] "key-7" r /\
  resumage broken_pipeline (at_time 100 (5000 # 1)) (Some "key-7") req [r]
  = (Raise (PipelineError "model error"),
     [free_row 4 (Some 100) (Some (5000 # 1))], [req]).
Proof.
  assert (Hreg : registered [free_row 3 (Some 100) (Some (1000 # 1))] "key-7"
                   (free_row 3 (Some 100) (Some (1000 # 1))))
    by concrete_registered.
  intros r req. split; [exact Hreg | ].
  apply (proj2 (C9_pipeline_after_admission_no_rollback broken_pipeline
                  (at_time 100 (5000 # 1)) (Some "key-7")
                  (mkTexteReq "some long text" 130 30)
                  [free_row 3 (Some 100) (Some (1000 # 1))])
               "key-7" (free_row 3 (Some 100) (Some (1000 # 1))) 100 (5000 # 1)
               (free_row 3 (Some 100) (Some (1000 # 1)))
               [free_row 4 (Some 100) (Some (5000 # 1))]
               (PipelineError "model error")
               eq_refl eq_refl Hreg eq_refl eq_refl).
Defined.

(** ** C6: counting accepted requests *)

Lemma serve_accepted (k : string) (today : date) (ts : list Q) :
  forall (db : DB) (r : User) outs db',
    registered db k r ->
    serve (Some k) (map (at_time today) ts) db = (outs, db') ->
    exists r',
      registered db' k r' /\ id r' = id r /\
      ((forall t, In t ts -> (0 <= t)%Q) ->
       nondecreasing (last_request_time r) (accepted_times ts outs)) /\
      match accepted_times ts outs with
      | [] => r' = r
      | _ :: _ =>
          requests_today r'
          = effective_requests_today today r
            + Z.of_nat (List.length (accepted_times ts outs)) /\
          last_request_date r' = Some today /\
          last_request_time r' = Some (last (accepted_times ts outs) 0%Q)
      end.
Proof.
  induction ts as [ | t ts IH]; intros db r outs db' Hreg Hserve.
  - injection Hserve as <- <-. exists r. simpl. auto.
  - cbn [map serve] in Hserve.
    destruct (verify_api_key_cases db k r today t Hreg)
      as [(_ & Hv) | [(_ & _ & Hv) | (_ & Hs & db1 & Hv & Hreg1 & _)]];
      rewrite Hv in Hserve.
    + destruct (serve (Some k) (map (at_time today) ts) db) as [os db2] eqn:E.
      injection Hserve as <- <-.
      destruct (IH db r os db2 Hreg E) as (r' & Hr' & Hid & Hmono & Hcnt).
      exists r'. cbn [accepted_times is_Ok].
      split; [exact Hr' | ]. split; [exact Hid | ]. split; [ | exact Hcnt].
      intros Hpos. apply Hmono. intros x Hx. apply Hpos. right. exact Hx.
    + destruct (serve (Some k) (map (at_time today) ts) db) as [os db2] eqn:E.
      injection Hserve as <- <-.
      destruct (IH db r os db2 Hreg E) as (r' & Hr' & Hid & Hmono & Hcnt).
      exists r'. cbn [accepted_times is_Ok].
      split; [exact Hr' | ]. split; [exact Hid | ]. split; [ | exact Hcnt].
      intros Hpos. apply Hmono. intros x Hx. apply Hpos. right. exact Hx.
    + destruct (serve (Some k) (map (at_time today) ts) db1) as [os db2] eqn:E.
      injection Hserve as <- <-.
      destruct (IH db1 (committed today t r) os db2 Hreg1 E)
        as (r' & Hr' & Hid & Hmono & Hcnt).
      exists r'. cbn [accepted_times is_Ok].
      rewrite committed_id in Hid. rewrite committed_time in Hmono.
      split; [exact Hr' | ]. split; [exact Hid | ]. split.
      * intros Hpos. cbn [nondecreasing]. split.
        -- intros p Hp.
           destruct (too_soon_false_later _ _ _ Hs Hp) as [Hz | Hge].
           ++ rewrite Hz. apply Hpos. left. reflexivity.
           ++ assert (0 <= 1 - (1 # 2 ^ 54))%Q by (vm_compute; discriminate).
              lra.
        -- apply Hmono. intros x Hx. apply Hpos. right. exact Hx.
      * destruct (accepted_times ts os) as [ | a acc'] eqn:Eacc.
        -- subst r'. cbn [List.length last].
           rewrite committed_count, committed_date, committed_time.
           repeat split; lia.
        -- destruct Hcnt as (Hc & Hd & Ht).
           rewrite effective_committed in Hc.
           split; [ | split; [exact Hd | exact Ht]].
           rewrite Hc. cbn [List.length]. lia.
Qed.

(** C6: after the requests of one caller served one after the other on one
    day, N of them accepted (N at least 1), the stored counter is the
    effective counter the row started the day with plus N -- hence exactly N
    for a caller with nothing counted yet that day --, the stored last request
    time is the timestamp of the last accepted request, and (the clock never
    reading a negative time) the timestamps of the accepted requests, from
    the one already stored on, never decrease. *)
Theorem C6_counter_and_time_after_accepted_requests
  (db : DB) (k : string) (r : User) (today : date) (ts : list Q)
  (outs : list (result User)) (db' : DB) :
  registered db k r ->
  serve (Some k) (map (at_time today) ts) db = (outs, db') ->
  accepted_times ts outs <> [] ->
  exists r',
    select_by_id (id r) db' = Some r' /\
    requests_today r'
    = effective_requests_today today r
      + Z.of_nat (List.length (accepted_times ts outs)) /\
    (effective_requests_today today r = 0 ->
     requests_today r' = Z.of_nat (List.length (accepted_times ts outs))) /\
    last_request_time r' = Some (last (accepted_times ts outs) 0%Q) /\
    ((forall t, In t ts -> (0 <= t)%Q) ->
     nondecreasing (last_request_time r) (accepted_times ts outs)).
Proof.
  intros Hreg Hserve Hacc.
  destruct (serve_accepted k today ts db r outs db' Hreg Hserve)
    as (r' & Hr' & Hid & Hmono & Hcnt).
  exists r'.
  pose proof (registered_stored _ _ _ Hr') as Hst. unfold stored in Hst.
  rewrite Hid in Hst.
  destruct (accepted_times ts outs) as [ | a acc]; [contradiction | ].
  destruct Hcnt as (Hc & _ & Ht).
  split; [exact Hst | ]. split; [exact Hc | ].
  split; [intros H0; rewrite Hc, H0; reflexivity | ].
  split; [exact Ht | exact Hmono].
Qed.

Lemma C6_counter_and_time_after_accepted_requests_witness :
  let r := pro_row 7 (Some 99) (Some (1000 # 1)) in
  let ts := [5000 # 1; 10001 # 2; 5002 # 1]%Q in
  let res := serve (Some "key-8") (map (at_time 100) ts) [r] in
  registered [r] "key-8" r /\
  accepted_times ts (fst res) = [5000 # 1; 5002 # 1]%Q /\
  exists r',
    select_by_id (id r) (snd res) = Some r' /\
    requests_today r' = 2 /\
    last_request_time r' = Some (5002 # 1).
Proof.
  assert (Hreg : registered [pro_row 7 (Some 99) (Some (1000 # 1))] "key-8"
                   (pro_row 7 (Some 99) (Some (1000 # 1))))
    by concrete_registered.
  intros r ts res. split; [exact Hreg | ]. split; [reflexivity | ].
  destruct (C6_counter_and_time_after_accepted_requests
              [pro_row 7 (Some 99) (Some (1000 # 1))] "key-8"
              (pro_row 7 (Some 99) (Some (1000 # 1))) 100
              [5000 # 1; 10001 # 2; 5002 # 1]%Q (fst res) (snd res)
              Hreg eq_refl)
    as (r' & Hsel & Hc & _ & Ht & _).
  - discriminate.
  - exists r'. split; [exact Hsel | ]. split; [exact Hc | exact Ht].
Defined.

(** ** C8: two requests of one caller, interleaved or not *)

Lemma three_steps (c : Clock) (key : option string) (db : DB) :
  (let '(t1, d1) := step c (AtLookup key) db in
   let '(t2, d2) := step c t1 d1 in
   step c t2 d2)
  = (Finished (fst (verify_api_key c key db)), snd (verify_api_key c key db)).
Proof.
  destruct key as [[ | a k] | ]; try reflexivity.
  unfold verify_api_key. cbn [step]. unfold bind.
  destruct (get_user_from_db (String a k) db) as [[user | e] d]; [ | reflexivity].
  destruct (check_quota (verify_today c) user d) as [[user' | e] d'];
    [ | reflexivity].
  cbn [step]. unfold update_user_usage.
  destruct (select_by_id (id user') d') as [u | ]; [ | reflexivity].
  cbn [step].
  destruct (commit_usage (update_today c) (now_ts c) (id user') u d')
    as [[[] | e] d'']; reflexivity.
Qed.

(** Without interleaving the two requests are two calls of [verify_api_key],
    the second on the table the first left. *)
Lemma interleave_one_after_the_other (c1 c2 : Clock) (k1 k2 : option string) (db : DB) :
  interleave c1 c2 one_after_the_other (AtLookup k1) (AtLookup k2) db
  = (Finished (fst (verify_api_key c1 k1 db)),
     Finished (fst (verify_api_key c2 k2 (snd (verify_api_key c1 k1 db)))),
     snd (verify_api_key c2 k2 (snd (verify_api_key c1 k1 db)))).
Proof.
  unfold one_after_the_other. cbn [interleave].
  pose proof (three_steps c1 k1 db) as H1.
  destruct (step c1 (AtLookup k1) db) as [ta da].
  destruct (step c1 ta da) as [tb dbb].
  destruct (step c1 tb dbb) as [tc dc].
  injection H1 as -> ->.
  pose proof (three_steps c2 k2 (snd (verify_api_key c1 k1 db))) as H2.
  destruct (step c2 (AtLookup k2) (snd (verify_api_key c1 k1 db))) as [ua ea].
  destruct (step c2 ua ea) as [ub eb].
  destruct (step c2 ub eb) as [uc ec].
  injection H2 as -> ->. reflexivity.
Qed.

(** C8 fails on the code: the throttle test and the UPDATE are separate
    statements with no lock around them, against the limits the module's
    docstring announces (one request per second and per user, 20 requests a
    day).  When both requests, 0.1 s apart, read the row before either
    writes it, both are accepted; and on the first request of a day both
    write [requests_today=1], so that two accepted requests leave a counter
    of 1. *)
Lemma C8_two_allows_when_interleaved :
  (let r := pro_row 5 (Some 100) (Some (1000 # 1)) in
   interleave (at_time 100 (5000 # 1)) (at_time 100 (50001 # 10)) both_read_first
     (AtLookup (Some "key-8")) (AtLookup (Some "key-8")) [r]
   = (Finished (Ok r), Finished (Ok r),
      [pro_row 7 (Some 100) (Some (50001 # 10))]))
  /\
  (let r := pro_row 5 (Some 99) (Some (1000 # 1)) in
   interleave (at_time 100 (5000 # 1)) (at_time 100 (50001 # 10)) both_read_first
     (AtLookup (Some "key-8")) (AtLookup (Some "key-8")) [r]
   = (Finished (Ok r), Finished (Ok r),
      [pro_row 1 (Some 100) (Some (50001 # 10))])).
Proof.
  split; reflexivity.
Qed.

(** The same two requests run one after the other: the second is throttled
    and the counter counts the first. *)
Example same_requests_one_after_the_other :
  let r := pro_row 5 (Some 100) (Some (1000 # 1)) in
  interleave (at_time 100 (5000 # 1)) (at_time 100 (50001 # 10)) one_after_the_other
    (AtLookup (Some "key-8")) (AtLookup (Some "key-8")) [r]
  = (Finished (Ok r), Finished (Raise RateLimited),
     [pro_row 6 (Some 100) (Some (5000 # 1))]).
Proof. reflexivity. Qed.

(** * Further properties of the gate *)

(** ** What a request can do to the table, for any table *)

Lemma select_by_id_In (db : DB) (r : User) :
  In r db -> exists u, select_by_id (id r) db = Some u /\ id u = id r.
Proof.
  intros Hin. unfold select_by_id.
  destruct (find (fun u => id u =? id r) db) as [u | ] eqn:E.
  - exists u. split; [reflexivity | ].
    apply find_some in E. apply Z.eqb_eq. apply E.
  - pose proof (find_none _ _ E r Hin) as H. simpl in H.
    rewrite Z.eqb_refl in H. discriminate.
Qed.

(** [verify_api_key] on any table: the quota is judged on the row [r] the
    credential selects, the throttle and the UPDATE on the row [u] the SELECT
    by id returns. *)
Lemma verify_api_key_selected (c : Clock) (db : DB) (k : string) (r u : User) :
  k <> "" ->
  select_by_key k db = Some r ->
  select_by_id (id r) db = Some u ->
  verify_api_key c (Some k) db =
    if quota_reached (verify_today c) r then (Raise QuotaExceeded, db)
    else if too_soon (last_request_time u) (now_ts c) then (Raise RateLimited, db)
    else (Ok (fetched_view (verify_today c) r),
          update_where_id (id r) (usage_update (update_today c) (now_ts c) u) db).
Proof.
  intros Hne Hk Hu.
  destruct k as [ | a k']; [congruence | ].
  unfold verify_api_key, bind, get_user_from_db. rewrite Hk.
  unfold check_quota, quota_reached, fetched_view, effective_requests_today.
  destruct (String.eqb (plan r) "free"); simpl.
  - destruct (date_neq (last_request_date r) (verify_today c)) eqn:Ed; simpl.
    + unfold ret, update_user_usage. simpl. rewrite Hu.
      unfold commit_usage, usage_update.
      destruct (too_soon _ _); [reflexivity | ].
      destruct (date_neq (last_request_date u) (update_today c)); reflexivity.
    + destruct (DAILY_LIMIT <=? requests_today r); [reflexivity | ].
      unfold ret, update_user_usage. rewrite Hu.
      unfold commit_usage, usage_update.
      destruct (too_soon _ _); [reflexivity | ].
      destruct (date_neq (last_request_date u) (update_today c)); reflexivity.
  - unfold ret, update_user_usage. rewrite Hu.
    unfold commit_usage, usage_update.
    destruct (too_soon _ _); [reflexivity | ].
    destruct (date_neq (last_request_date u) (update_today c)); reflexivity.
Qed.

(** Every run of [verify_api_key] is a rejection that leaves the table, or an
    acceptance that applies one UPDATE chosen from the row [u] the SELECT by
    id returned. *)
Lemma verify_api_key_outcome (c : Clock) (key : option string) (db : DB) :
  (exists e, gate_exception e /\ verify_api_key c key db = (Raise e, db))
  \/
  (exists k r u,
     key = Some k /\ select_by_key k db = Some r /\
     select_by_id (id r) db = Some u /\ id u = id r /\
     quota_reached (verify_today c) r = false /\
     too_soon (last_request_time u) (now_ts c) = false /\
     verify_api_key c key db
     = (Ok (fetched_view (verify_today c) r),
        update_where_id (id r) (usage_update (update_today c) (now_ts c) u) db)).
Proof.
  unfold gate_exception.
  destruct key as [[ | a k] | ];
    [left; eexists; split; [ | reflexivity]; auto | |
     left; eexists; split; [ | reflexivity]; auto].
  destruct (select_by_key (String a k) db) as [r | ] eqn:Hk.
  - destruct (select_by_key_In _ _ _ Hk) as [Hin _].
    destruct (select_by_id_In db r Hin) as (u & Hu & Hid).
    assert (Hne : String a k <> "") by discriminate.
    rewrite (verify_api_key_selected c db _ r u Hne Hk Hu).
    destruct (quota_reached (verify_today c) r) eqn:Hq;
      [left; eexists; split; [ | reflexivity]; auto | ].
    destruct (too_soon (last_request_time u) (now_ts c)) eqn:Hs;
      [left; eexists; split; [ | reflexivity]; auto | ].
    right. exists (String a k), r, u. repeat split; assumption.
  - left. exists Unauthenticated_invalid. split; [auto | ].
    unfold verify_api_key, bind, get_user_from_db. rewrite Hk. reflexivity.
Qed.

Lemma usage_update_plan today now r u : plan (usage_update today now r u) = plan u.
Proof. unfold usage_update. destruct (date_neq _ _); reflexivity. Qed.

Lemma updated_row_other (uid : Z) (f : User -> User) (u : User) :
  id u <> uid -> updated_row uid f u = u.
Proof.
  intros H. unfold updated_row. apply Z.eqb_neq in H. rewrite H. reflexivity.
Qed.

Lemma updated_row_same (uid : Z) (f : User -> User) (u : User) :
  id u = uid -> updated_row uid f u = f u.
Proof.
  intros H. unfold updated_row. apply Z.eqb_eq in H. rewrite H. reflexivity.
Qed.

(** A rejected request writes nothing: whenever [verify_api_key] raises, for
    any credential, clock and table (unique ids or not), the table it leaves
    is the table it found. *)
Theorem rejected_request_writes_nothing
  (c : Clock) (key : option string) (db : DB) (e : exn) :
  fst (verify_api_key c key db) = Raise e ->
  snd (verify_api_key c key db) = db.
Proof.
  intros H.
  destruct (verify_api_key_outcome c key db)
    as [(e' & _ & Hv) | (k & r & u & _ & _ & _ & _ & _ & _ & Hv)];
    rewrite Hv in *; [reflexivity | discriminate].
Qed.

Lemma rejected_request_writes_nothing_witness :
  let db := [free_row 20 (Some 100) (Some (1000 # 1)); pro_row 3 None None] in
  fst (verify_api_key (at_time 100 (5000 # 1)) (Some "key-7") db) = Raise QuotaExceeded /\
  snd (verify_api_key (at_time 100 (5000 # 1)) (Some "key-7") db) = db.
Proof.
  intros db. split; [reflexivity | ].
  apply (rejected_request_writes_nothing (at_time 100 (5000 # 1)) (Some "key-7")
           [free_row 20 (Some 100) (Some (1000 # 1)); pro_row 3 None None]
           QuotaExceeded).
  reflexivity.
Defined.

(** [verify_api_key] raises nothing but its four HTTP exceptions (401 for a
    missing or unknown key, 429 for the quota and the throttle): the SELECT by
    id of [update_user_usage] always finds a row, so the TypeError of an empty
    [fetchone()] cannot occur behind [verify_api_key], whatever the table. *)
Theorem verify_api_key_raises_only_gate_exceptions
  (c : Clock) (key : option string) (db : DB) (e : exn) :
  fst (verify_api_key c key db) = Raise e ->
  gate_exception e /\ e <> TypeError /\
  exists status msg, e = HTTPException status msg /\ (status = 401 \/ status = 429).
Proof.
  intros H.
  destruct (verify_api_key_outcome c key db)
    as [(e' & Hg & Hv) | (k & r & u & _ & _ & _ & _ & _ & _ & Hv)];
    rewrite Hv in H; [ | discriminate].
  injection H as <-. split; [exact Hg | ].
  destruct Hg as [-> | [-> | [-> | ->]]]; (split; [discriminate | ]);
    eexists; eexists; (split; [reflexivity | ]); auto.
Qed.

Lemma verify_api_key_raises_only_gate_exceptions_witness :
  let db := [pro_row 3 (Some 100) (Some (1000 # 1))] in
  fst (verify_api_key (at_time 100 (2001 # 2)) (Some "key-8") db) = Raise RateLimited /\
  gate_exception RateLimited /\ RateLimited <> TypeError.
Proof.
  intros db. split; [reflexivity | ].
  destruct (verify_api_key_raises_only_gate_exceptions
              (at_time 100 (2001 # 2)) (Some "key-8")
              [pro_row 3 (Some 100) (Some (1000 # 1))] RateLimited eq_refl)
    as (Hg & Hne & _).
  split; [exact Hg | exact Hne].
Defined.

(** No request, accepted or not, adds, deletes or reorders rows, or changes
    the id, the API key or the plan of any row. *)
Theorem request_keeps_ids_keys_and_plans
  (c : Clock) (key : option string) (db : DB) :
  map id (snd (verify_api_key c key db)) = map id db /\
  map api_key (snd (verify_api_key c key db)) = map api_key db /\
  map plan (snd (verify_api_key c key db)) = map plan db.
Proof.
  destruct (verify_api_key_outcome c key db)
    as [(e' & _ & Hv) | (k & r & u & _ & _ & _ & _ & _ & _ & Hv)];
    rewrite Hv; cbn [snd]; [auto | ].
  unfold update_where_id. rewrite !map_map.
  repeat split; apply map_ext; intros x; unfold updated_row;
    destruct (id x =? id r); try reflexivity.
  - apply usage_update_id.
  - apply usage_update_key.
  - apply usage_update_plan.
Qed.

(** A request only writes rows that carry the caller's id: every row with
    another id is, at the same position, the same after the request. *)
Theorem request_leaves_other_callers_rows
  (c : Clock) (k : string) (db : DB) (r : User) (i : nat) (row : User) :
  select_by_key k db = Some r ->
  nth_error db i = Some row ->
  id row <> id r ->
  nth_error (snd (verify_api_key c (Some k) db)) i = Some row.
Proof.
  intros Hk Hi Hne.
  destruct (verify_api_key_outcome c (Some k) db)
    as [(e' & _ & Hv) | (k' & r' & u & Hkey & Hk' & _ & _ & _ & _ & Hv)];
    rewrite Hv; cbn [snd]; [exact Hi | ].
  injection Hkey as <-. assert (r' = r) by congruence. subst r'.
  unfold update_where_id. rewrite nth_error_map, Hi. cbn [option_map].
  rewrite updated_row_other by exact Hne. reflexivity.
Qed.

Lemma request_leaves_other_callers_rows_witness :
  let db := [free_row 3 (Some 100) (Some (1000 # 1)); pro_row 3 None None] in
  select_by_key "key-7" db = Some (free_row 3 (Some 100) (Some (1000 # 1))) /\
  is_Ok (fst (verify_api_key (at_time 100 (5000 # 1)) (Some "key-7") db)) = true /\
  nth_error (snd (verify_api_key (at_time 100 (5000 # 1)) (Some "key-7") db)) 1
  = Some (pro_row 3 None None).
Proof.
  intros db. split; [reflexivity | ]. split; [reflexivity | ].
  apply (request_leaves_other_callers_rows (at_time 100 (5000 # 1)) "key-7"
           [free_row 3 (Some 100) (Some (1000 # 1)); pro_row 3 None None]
           (free_row 3 (Some 100) (Some (1000 # 1))) 1 (pro_row 3 None None));
    [reflexivity | reflexivity | discriminate].
Defined.

(** The counters stay non-negative: if no row of the table has a negative
    [requests_today], no row has one after a request. *)
Theorem request_keeps_counters_nonnegative
  (c : Clock) (key : option string) (db : DB) :
  Forall (fun u => 0 <= requests_today u) db ->
  Forall (fun u => 0 <= requests_today u) (snd (verify_api_key c key db)).
Proof.
  intros H.
  destruct (verify_api_key_outcome c key db)
    as [(e' & _ & Hv) | (k & r & u & _ & _ & _ & _ & _ & _ & Hv)];
    rewrite Hv; cbn [snd]; [exact H | ].
  unfold update_where_id. apply Forall_map.
  apply (Forall_impl _ (P := fun u => 0 <= requests_today u)); [ | exact H].
  intros x Hx. unfold updated_row, usage_update.
  destruct (id x =? id r); [ | exact Hx].
  destruct (date_neq _ _); simpl; lia.
Qed.

Lemma request_keeps_counters_nonnegative_witness :
  let db := [free_row 3 (Some 100) (Some (1000 # 1)); pro_row 0 None None] in
  Forall (fun u => 0 <= requests_today u) db /\
  Forall (fun u => 0 <= requests_today u)
         (snd (verify_api_key (at_time 100 (5000 # 1)) (Some "key-8") db)).
Proof.
  assert (H : Forall (fun u => 0 <= requests_today u)
                [free_row 3 (Some 100) (Some (1000 # 1)); pro_row 0 None None])
    by (repeat constructor; simpl; lia).
  intros db. split; [exact H | ].
  apply (request_keeps_counters_nonnegative (at_time 100 (5000 # 1)) (Some "key-8")
           [free_row 3 (Some 100) (Some (1000 # 1)); pro_row 0 None None] H).
Defined.

(** ** [update_user_usage] and [get_user_from_db] on their own *)

Lemma select_by_id_absent (uid : Z) (db : DB) :
  select_by_id uid db = None <-> forall u, In u db -> id u <> uid.
Proof.
  unfold select_by_id. split.
  - intros H u Hin Heq. pose proof (find_none _ _ H u Hin) as E.
    simpl in E. apply Z.eqb_neq in E. contradiction.
  - intros H. destruct (find (fun u => id u =? uid) db) as [u | ] eqn:E;
      [ | reflexivity].
    apply find_some in E. destruct E as [Hin Heq]. apply Z.eqb_eq in Heq.
    exfalso. exact (H u Hin Heq).
Qed.

(** Called with an id no row carries, [update_user_usage] fails with the
    TypeError of subscripting an empty [fetchone()] and writes nothing; and
    that is the only way it raises TypeError. *)
Theorem update_user_usage_unknown_id
  (today : date) (now : Q) (uid : Z) (db : DB) :
  (forall u, In u db -> id u <> uid) <->
  update_user_usage today now uid db = (Raise TypeError, db).
Proof.
  rewrite <- select_by_id_absent. unfold update_user_usage. split.
  - intros ->. reflexivity.
  - destruct (select_by_id uid db) as [u | ]; [ | reflexivity].
    unfold commit_usage.
    destruct (too_soon _ _); [discriminate | ].
    destruct (date_neq _ _); discriminate.
Qed.

Lemma update_user_usage_unknown_id_witness :
  let db := [free_row 3 (Some 100) None] in
  (forall u, In u db -> id u <> 42) /\
  update_user_usage 100 (5000 # 1) 42 db = (Raise TypeError, db).
Proof.
  assert (H : forall u, In u [free_row 3 (Some 100) None] -> id u <> 42)
    by (intros u [<- | []]; discriminate).
  intros db. split; [exact H | ].
  apply (proj1 (update_user_usage_unknown_id 100 (5000 # 1) 42
                  [free_row 3 (Some 100) None]) H).
Defined.

(** When [update_user_usage] succeeds, every row that carries the id --
    all of them if the id is not unique -- is stamped with [now] and has a
    counter of 1 or its old counter plus one, and every other row is
    unchanged; the table keeps its length. *)
Theorem update_user_usage_stamps_every_row_of_the_id
  (today : date) (now : Q) (uid : Z) (db db' : DB) :
  update_user_usage today now uid db = (Ok tt, db') ->
  List.length db' = List.length db /\
  forall i old, nth_error db i = Some old ->
    exists new, nth_error db' i = Some new /\
      (id old <> uid -> new = old) /\
      (id old = uid ->
       last_request_time new = Some now /\
       id new = id old /\ api_key new = api_key old /\ plan new = plan old /\
       (requests_today new = 1 /\ last_request_date new = Some today \/
        requests_today new = requests_today old + 1 /\
        last_request_date new = last_request_date old)).
Proof.
  unfold update_user_usage.
  destruct (select_by_id uid db) as [u | ]; [ | discriminate].
  unfold commit_usage. destruct (too_soon _ _); [discriminate | ].
  destruct (date_neq (last_request_date u) today); intros H; injection H as <-;
    (split; [unfold update_where_id; apply length_map | ]);
    intros i old Hi; unfold update_where_id; rewrite nth_error_map, Hi;
    cbn [option_map]; eexists; (split; [reflexivity | ]); split;
    try (intros Hne; apply updated_row_other; exact Hne);
    intros Heq; rewrite (updated_row_same _ _ _ Heq); simpl; auto 10.
Qed.

Lemma update_user_usage_stamps_every_row_of_the_id_witness :
  let a := mkUser 5 "key-a" "free" 3 (Some 100) None in
  let b := mkUser 5 "key-b" "pro" 9 (Some 99) None in
  update_user_usage 100 (5000 # 1) 5 [a; b]
  = (Ok tt, [mkUser 5 "key-a" "free" 4 (Some 100) (Some (5000 # 1));
             mkUser 5 "key-b" "pro" 10 (Some 99) (Some (5000 # 1))]) /\
  List.length [mkUser 5 "key-a" "free" 4 (Some 100) (Some (5000 # 1));
               mkUser 5 "key-b" "pro" 10 (Some 99) (Some (5000 # 1))]
  = List.length [a; b].
Proof.
  intros a b. split; [reflexivity | ].
  apply (proj1 (update_user_usage_stamps_every_row_of_the_id 100 (5000 # 1) 5
                  [mkUser 5 "key-a" "free" 3 (Some 100) None;
                   mkUser 5 "key-b" "pro" 9 (Some 99) None]
                  [mkUser 5 "key-a" "free" 4 (Some 100) (Some (5000 # 1));
                   mkUser 5 "key-b" "pro" 10 (Some 99) (Some (5000 # 1))]
                  eq_refl)).
Defined.

(** [get_user_from_db] is a pure lookup: it never writes; it succeeds exactly
    when some row carries the key, and then returns a row of the table that
    carries it; otherwise it raises the 401 of an invalid key. *)
Theorem get_user_from_db_is_a_lookup (k : string) (db : DB) :
  snd (get_user_from_db k db) = db /\
  ((exists u, In u db /\ api_key u = k) <->
   exists u, fst (get_user_from_db k db) = Ok u) /\
  (forall u, fst (get_user_from_db k db) = Ok u -> In u db /\ api_key u = k) /\
  ((forall u, In u db -> api_key u <> k) ->
   fst (get_user_from_db k db) = Raise Unauthenticated_invalid).
Proof.
  unfold get_user_from_db.
  destruct (select_by_key k db) as [r | ] eqn:E; cbn [fst snd].
  - destruct (select_by_key_In _ _ _ E) as [Hin Hk].
    split; [reflexivity | ]. split; [ | split].
    + split; eauto.
    + intros u H. injection H as <-. auto.
    + intros H. exfalso. exact (H r Hin Hk).
  - split; [reflexivity | ]. split; [ | split].
    + split.
      * intros (u & Hin & Hk). unfold select_by_key in E.
        pose proof (find_none _ _ E u Hin) as F. simpl in F.
        apply String.eqb_neq in F. contradiction.
      * intros (u & H). discriminate.
    + intros u H. discriminate.
    + intros _. reflexivity.
Qed.

Lemma get_user_from_db_is_a_lookup_witness :
  let db := [free_row 3 (Some 100) None; pro_row 0 None None] in
  fst (get_user_from_db "key-8" db) = Ok (pro_row 0 None None) /\
  In (pro_row 0 None None) db /\ api_key (pro_row 0 None None) = "key-8".
Proof.
  intros db. split; [reflexivity | ].
  apply (proj1 (proj2 (proj2 (get_user_from_db_is_a_lookup "key-8"
           [free_row 3 (Some 100) None; pro_row 0 None None])))).
  reflexivity.
Defined.

(** ** Requests of one registered caller, for any clock reads *)

Lemma verify_api_key_registered_step (c : Clock) (db : DB) (k : string) (r : User) :
  registered db k r ->
  (exists e, verify_api_key c (Some k) db = (Raise e, db))
  \/
  (quota_reached (verify_today c) r = false /\
   too_soon (last_request_time r) (now_ts c) = false /\
   exists db1,
     verify_api_key c (Some k) db = (Ok (fetched_view (verify_today c) r), db1) /\
     registered db1 k (committed (update_today c) (now_ts c) r)).
Proof.
  intros Hreg. rewrite (verify_api_key_registered _ _ _ _ Hreg).
  destruct (quota_reached (verify_today c) r); [left; eauto | ].
  destruct (too_soon (last_request_time r) (now_ts c)); [left; eauto | ].
  right. repeat split. eexists. split; [reflexivity | ].
  apply registered_committed. exact Hreg.
Qed.

(** The quota is judged as of the day [verify_api_key] reads, the write as of
    the day [update_user_usage] reads: an accepted request, whatever the two
    days are, had not reached the quota on the first and stores the second as
    date, [now] as time, and as counter one more than the counter effective
    on the second -- so a request checked before midnight and written after
    it is the first request of the new day. *)
Theorem accepted_request_is_written_as_of_update_today
  (c : Clock) (db : DB) (k : string) (r u : User) (db' : DB) :
  registered db k r ->
  verify_api_key c (Some k) db = (Ok u, db') ->
  quota_reached (verify_today c) r = false /\
  exists r',
    select_by_id (id r) db' = Some r' /\
    last_request_date r' = Some (update_today c) /\
    last_request_time r' = Some (now_ts c) /\
    requests_today r' = effective_requests_today (update_today c) r + 1.
Proof.
  intros Hreg Hv.
  destruct (verify_api_key_registered_step c db k r Hreg)
    as [(e & Hv') | (Hq & _ & db1 & Hv' & Hreg1)];
    rewrite Hv in Hv'; [discriminate | ].
  injection Hv' as _ <-. split; [exact Hq | ].
  exists (committed (update_today c) (now_ts c) r).
  pose proof (registered_stored _ _ _ Hreg1) as Hst. unfold stored in Hst.
  rewrite committed_id in Hst. split; [exact Hst | ].
  split; [apply committed_date | ]. split; [apply committed_time | apply committed_count].
Qed.

(** A FREE row dated day 100 with 19 requests: the quota check reads day 100,
    the update reads day 101. *)
Lemma accepted_request_is_written_as_of_update_today_witness :
  let r := free_row 19 (Some 100) (Some (1000 # 1)) in
  let c := mkClock 100 101 (5000 # 1) in
  registered [r] "key-7" r /\
  verify_api_key c (Some "key-7") [r]
  = (Ok r, [free_row 1 (Some 101) (Some (5000 # 1))]) /\
  exists r',
    select_by_id (id r) [free_row 1 (Some 101) (Some (5000 # 1))] = Some r' /\
    last_request_date r' = Some 101 /\
    last_request_time r' = Some (5000 # 1) /\
    requests_today r' = 1.
Proof.
  assert (Hreg : registered [free_row 19 (Some 100) (Some (1000 # 1))] "key-7"
                   (free_row 19 (Some 100) (Some (1000 # 1))))
    by concrete_registered.
  intros r c. split; [exact Hreg | ]. split; [reflexivity | ].
  apply (proj2 (accepted_request_is_written_as_of_update_today
                  (mkClock 100 101 (5000 # 1))
                  [free_row 19 (Some 100) (Some (1000 # 1))] "key-7"
                  (free_row 19 (Some 100) (Some (1000 # 1)))
                  (free_row 19 (Some 100) (Some (1000 # 1)))
                  [free_row 1 (Some 101) (Some (5000 # 1))] Hreg eq_refl)).
Defined.

(** The throttle holds over any sequence of requests of one caller served one
    after the other, whatever their days and outcomes: between each accepted
    request and the previous accepted one, and between the first and the
    time the row started with, the difference the code computes in double
    precision is at least 1, so that the exact elapsed time is at least
    [1 - 2^-54] seconds (a stored time of 0.0 excepted, which the code takes
    for no time at all). *)
Theorem accepted_requests_are_one_second_apart
  (k : string) (cs : list Clock) :
  forall (db : DB) (r : User) (outs : list (result User)) (db' : DB),
    registered db k r ->
    serve (Some k) cs db = (outs, db') ->
    one_second_apart (last_request_time r)
                     (accepted_times (map now_ts cs) outs).
Proof.
  induction cs as [ | c cs IH]; intros db r outs db' Hreg Hserve.
  - injection Hserve as <- <-. exact I.
  - cbn [serve] in Hserve.
    destruct (verify_api_key_registered_step c db k r Hreg)
      as [(e & Hv) | (_ & Hs & db1 & Hv & Hreg1)]; rewrite Hv in Hserve.
    + destruct (serve (Some k) cs db) as [os db2] eqn:E.
      injection Hserve as <- <-. cbn [map accepted_times is_Ok].
      exact (IH db r os db2 Hreg E).
    + destruct (serve (Some k) cs db1) as [os db2] eqn:E.
      injection Hserve as <- <-. cbn [map accepted_times is_Ok one_second_apart].
      split.
      * intros p Hp.
        destruct (proj1 (too_soon_false_iff _ _) Hs p Hp) as [Hz | Hge];
          [left; exact Hz | right].
        split; [exact Hge | apply to_double_ge_1_inv; exact Hge].
      * rewrite <- (committed_time (update_today c) (now_ts c) r).
        exact (IH db1 _ os db2 Hreg1 E).
Qed.

Lemma accepted_requests_are_one_second_apart_witness :
  let r := pro_row 7 (Some 99) (Some (1000 # 1)) in
  let cs := [at_time 100 (5000 # 1); at_time 100 (10001 # 2); at_time 101 (5002 # 1)] in
  registered [r] "key-8" r /\
  accepted_times (map now_ts cs) (fst (serve (Some "key-8") cs [r]))
  = [5000 # 1; 5002 # 1]%Q /\
  one_second_apart (Some (1000 # 1))
    (accepted_times (map now_ts cs) (fst (serve (Some "key-8") cs [r]))).
Proof.
  assert (Hreg : registered [pro_row 7 (Some 99) (Some (1000 # 1))] "key-8"
                   (pro_row 7 (Some 99) (Some (1000 # 1))))
    by concrete_registered.
  intros r cs. split; [exact Hreg | ]. split; [reflexivity | ].
  apply (accepted_requests_are_one_second_apart "key-8"
           [at_time 100 (5000 # 1); at_time 100 (10001 # 2); at_time 101 (5002 # 1)]
           [pro_row 7 (Some 99) (Some (1000 # 1))]
           (pro_row 7 (Some 99) (Some (1000 # 1)))
           _ (snd (serve (Some "key-8")
                     [at_time 100 (5000 # 1); at_time 100 (10001 # 2);
                      at_time 101 (5002 # 1)]
                     [pro_row 7 (Some 99) (Some (1000 # 1))])) Hreg).
  reflexivity.
Defined.

(** ** The quota of a FREE caller over one day *)

(** Served one after the other on one day, a FREE caller whose effective
    counter starts the sequence at [e] gets at most [20 - e] requests
    accepted (none when [e] is 20 or more), however many are sent and
    whatever their timing; and the effective counter never passes the larger
    of [e] and 20. *)
Theorem free_caller_accepted_at_most_the_remaining_quota
  (k : string) (today : date) (ts : list Q) :
  forall (db : DB) (r : User) (outs : list (result User)) (db' : DB),
    registered db k r ->
    plan r = "free" ->
    serve (Some k) (map (at_time today) ts) db = (outs, db') ->
    Z.of_nat (List.length (filter is_Ok outs))
    <= Z.max 0 (DAILY_LIMIT - effective_requests_today today r)
    /\ exists r',
         registered db' k r' /\
         effective_requests_today today r'
         <= Z.max DAILY_LIMIT (effective_requests_today today r).
Proof.
  induction ts as [ | t ts IH]; intros db r outs db' Hreg Hplan Hserve.
  - injection Hserve as <- <-. simpl. split; [lia | ]. exists r. split; [exact Hreg | lia].
  - cbn [map serve] in Hserve.
    destruct (verify_api_key_cases db k r today t Hreg)
      as [(_ & Hv) | [(_ & _ & Hv) | (Hq & _ & db1 & Hv & Hreg1 & _)]];
      rewrite Hv in Hserve.
    + destruct (serve (Some k) (map (at_time today) ts) db) as [os db2] eqn:E.
      injection Hserve as <- <-. cbn [filter is_Ok].
      exact (IH db r os db2 Hreg Hplan E).
    + destruct (serve (Some k) (map (at_time today) ts) db) as [os db2] eqn:E.
      injection Hserve as <- <-. cbn [filter is_Ok].
      exact (IH db r os db2 Hreg Hplan E).
    + destruct (serve (Some k) (map (at_time today) ts) db1) as [os db2] eqn:E.
      injection Hserve as <- <-. cbn [filter is_Ok List.length].
      apply quota_reached_false_iff in Hq.
      assert (Hlt : effective_requests_today today r < DAILY_LIMIT)
        by (destruct (Z_lt_le_dec (effective_requests_today today r) DAILY_LIMIT);
            [assumption | exfalso; apply Hq; auto]).
      destruct (IH db1 (committed today t r) os db2 Hreg1) as [Hn (r' & Hr' & He)];
        [rewrite committed_plan; exact Hplan | exact E | ].
      rewrite effective_committed in Hn, He.
      split; [lia | ]. exists r'. split; [exact Hr' | lia].
Qed.

Lemma free_caller_accepted_at_most_the_remaining_quota_witness :
  let r := free_row 18 (Some 100) (Some (1000 # 1)) in
  let ts := [5000 # 1; 5002 # 1; 5004 # 1; 5006 # 1]%Q in
  registered [r] "key-7" r /\ plan r = "free" /\
  map is_Ok (fst (serve (Some "key-7") (map (at_time 100) ts) [r]))
  = [true; true; false; false] /\
  Z.of_nat (List.length
              (filter is_Ok (fst (serve (Some "key-7") (map (at_time 100) ts) [r]))))
  <= Z.max 0 (DAILY_LIMIT - effective_requests_today 100 r).
Proof.
  assert (Hreg : registered [free_row 18 (Some 100) (Some (1000 # 1))] "key-7"
                   (free_row 18 (Some 100) (Some (1000 # 1))))
    by concrete_registered.
  intros r ts. split; [exact Hreg | ]. split; [reflexivity | ].
  split; [reflexivity | ].
  apply (proj1 (free_caller_accepted_at_most_the_remaining_quota "key-7" 100
                  [5000 # 1; 5002 # 1; 5004 # 1; 5006 # 1]%Q
                  [free_row 18 (Some 100) (Some (1000 # 1))]
                  (free_row 18 (Some 100) (Some (1000 # 1)))
                  _ (snd (serve (Some "key-7")
                            (map (at_time 100) [5000 # 1; 5002 # 1; 5004 # 1; 5006 # 1]%Q)
                            [free_row 18 (Some 100) (Some (1000 # 1))]))
                  Hreg eq_refl eq_refl)).
Defined.

(** Once a FREE caller has reached the quota of a day, every further request
    of that day is rejected with QuotaExceeded and the table stays as it is,
    however long the caller waits between requests. *)
Theorem over_quota_all_day
  (db : DB) (k : string) (r : User) (today : date) (ts : list Q) :
  registered db k r ->
  plan r = "free" ->
  DAILY_LIMIT <= effective_requests_today today r ->
  serve (Some k) (map (at_time today) ts) db
  = (map (fun _ => Raise QuotaExceeded) ts, db).
Proof.
  intros Hreg Hplan Hq.
  assert (E : quota_reached today r = true)
    by (apply quota_reached_true_iff; auto).
  induction ts as [ | t ts IH]; [reflexivity | ].
  cbn [map serve]. rewrite (verify_api_key_registered _ _ _ _ Hreg).
  cbn [at_time verify_today]. rewrite E, IH. reflexivity.
Qed.

Lemma over_quota_all_day_witness :
  let r := free_row 20 (Some 100) (Some (1000 # 1)) in
  registered [r] "key-7" r /\ plan r = "free" /\
  DAILY_LIMIT <= effective_requests_today 100 r /\
  serve (Some "key-7") (map (at_time 100) [5000 # 1; 9000 # 1]%Q) [r]
  = ([Raise QuotaExceeded; Raise QuotaExceeded], [r]).
Proof.
  assert (Hreg : registered [free_row 20 (Some 100) (Some (1000 # 1))] "key-7"
                   (free_row 20 (Some 100) (Some (1000 # 1))))
    by concrete_registered.
  intros r. split; [exact Hreg | ]. split; [reflexivity | ].
  split; [discriminate | ].
  apply (over_quota_all_day [free_row 20 (Some 100) (Some (1000 # 1))] "key-7"
           (free_row 20 (Some 100) (Some (1000 # 1))) 100
           [5000 # 1; 9000 # 1]%Q Hreg eq_refl).
  discriminate.
Defined.

(** ** The endpoint on success *)

(** [resumage] answers exactly when the gate accepts and the pipeline
    succeeds; the answer then carries the id and the plan of the caller's row
    and the pipeline's summary, the pipeline was invoked once, with the
    request, and the table holds the committed row. *)
Theorem resumage_answers_with_id_plan_and_summary
  (SUMMARIZER : string -> Z -> Z -> result string)
  (c : Clock) (db : DB) (k : string) (r : User) (req : TexteReq) :
  registered db k r ->
  ((exists resp db' calls,
      resumage SUMMARIZER c (Some k) req db = (Ok resp, db', calls))
   <->
   (quota_reached (verify_today c) r = false /\
    too_soon (last_request_time r) (now_ts c) = false /\
    exists s, SUMMARIZER (content req) (max_length req) (min_length req) = Ok s))
  /\
  (forall resp db' calls,
     resumage SUMMARIZER c (Some k) req db = (Ok resp, db', calls) ->
     user_id resp = id r /\ resp_plan resp = plan r /\
     SUMMARIZER (content req) (max_length req) (min_length req) = Ok (summary resp) /\
     calls = [req] /\
     select_by_id (id r) db' = Some (committed (update_today c) (now_ts c) r)).
Proof.
  intros Hreg. unfold resumage.
  destruct (verify_api_key_registered_step c db k r Hreg)
    as [(e & Hv) | (Hq & Hs & db1 & Hv & Hreg1)]; rewrite Hv.
  - split.
    + split.
      * intros (resp & db' & calls & H). discriminate.
      * intros (Hq & Hs & _).
        rewrite (verify_api_key_registered _ _ _ _ Hreg), Hq, Hs in Hv.
        discriminate.
    + intros resp db' calls H. discriminate.
  - destruct (SUMMARIZER (content req) (max_length req) (min_length req)) as [s | e].
    + split.
      * split; [intros _; eauto | intros _; eauto].
      * intros resp db' calls H. injection H as <- <- <-. cbn.
        rewrite fetched_view_id.
        pose proof (registered_stored _ _ _ Hreg1) as Hst. unfold stored in Hst.
        rewrite committed_id in Hst.
        repeat split; [ | exact Hst].
        unfold fetched_view. destruct (_ && _); reflexivity.
    + split.
      * split.
        -- intros (resp & db' & calls & H). discriminate.
        -- intros (_ & _ & s & H). discriminate.
      * intros resp db' calls H. discriminate.
Qed.

Lemma resumage_answers_with_id_plan_and_summary_witness :
  let r := free_row 3 (Some 100) (Some (1000 # 1)) in
  let req := mkTexteReq "some long text" 130 30 in
  registered [r] "key-7" r /\
  resumage echo_pipeline (at_time 100 (5000 # 1)) (Some "key-7") req [r]
  = (Ok (mkResponse 7 "free" "some"),
     [free_row 4 (Some 100) (Some (5000 # 1))], [req]) /\
  user_id (mkResponse 7 "free" "some") = id r /\
  resp_plan (mkResponse 7 "free" "some") = plan r.
Proof.
  assert (Hreg : registered [free_row 3 (Some 100) (Some (1000 # 1))] "key-7"
                   (free_row 3 (Some 100) (Some (1000 # 1))))
    by concrete_registered.
  intros r req. split; [exact Hreg | ]. split; [reflexivity | ].
  destruct (proj2 (resumage_answers_with_id_plan_and_summary echo_pipeline
                     (at_time 100 (5000 # 1))
                     [free_row 3 (Some 100) (Some (1000 # 1))] "key-7"
                     (free_row 3 (Some 100) (Some (1000 # 1)))
                     (mkTexteReq "some long text" 130 30) Hreg)
                  (mkResponse 7 "free" "some")
                  [free_row 4 (Some 100) (Some (5000 # 1))]
                  [mkTexteReq "some long text" 130 30] eq_refl)
    as (Hi & Hp & _).
  split; [exact Hi | exact Hp].
Defined.

(** ** Requests of different callers, under any interleaving *)

Section Frames.

Variables uidA uidB : Z.
Hypothesis different : uidA <> uidB.
Variables f g : User -> User.
Hypothesis f_id : forall u, id (f u) = id u.
Hypothesis g_id : forall u, id (g u) = id u.

Lemma update_where_id_comm (db : DB) :
  update_where_id uidA f (update_where_id uidB g db)
  = update_where_id uidB g (update_where_id uidA f db).
Proof.
  unfold update_where_id. rewrite !map_map. apply map_ext. intros x.
  unfold updated_row.
  destruct (id x =? uidA) eqn:Ea; destruct (id x =? uidB) eqn:Eb;
    cbn iota; rewrite ?f_id, ?g_id, ?Ea, ?Eb; try reflexivity.
  apply Z.eqb_eq in Ea, Eb. congruence.
Qed.

End Frames.

Lemma update_where_id_identity (uid : Z) (db : DB) :
  update_where_id uid (fun u => u) db = db.
Proof.
  unfold update_where_id. rewrite <- (map_id db) at 2. apply map_ext.
  intros x. unfold updated_row. destruct (id x =? uid); reflexivity.
Qed.

Lemma check_quota_id (today : date) (user user' : User) (db db' : DB) :
  check_quota today user db = (Ok user', db') -> id user' = id user /\ db' = db.
Proof.
  unfold check_quota.
  destruct (String.eqb (plan user) "free").
  - destruct (date_neq (last_request_date user) today); cbn [requests_today with_requests_today].
    + destruct (DAILY_LIMIT <=? 0); [discriminate | ].
      intros H. injection H as <- <-. auto.
    + destruct (DAILY_LIMIT <=? requests_today user); [discriminate | ].
      intros H. injection H as <- <-. auto.
  - intros H. injection H as <- <-. auto.
Qed.

(** What one statement of a thread does to the table: an UPDATE of the rows
    of its caller, or nothing. *)
Lemma step_effect (c : Clock) (uid : Z) (t : Thread) (db : DB) :
  works_for uid t db ->
  exists f, (forall u, id (f u) = id u) /\ (forall u, api_key (f u) = api_key u) /\
            snd (step c t db) = update_where_id uid f db.
Proof.
  intros Hw.
  assert (Hnone : exists f, (forall u, id (f u) = id u) /\
                            (forall u, api_key (f u) = api_key u) /\
                            db = update_where_id uid f db)
    by (exists (fun u => u); rewrite update_where_id_identity; auto).
  destruct t as [[[ | a k] | ] | user | user u | r]; cbn [step snd]; try exact Hnone.
  - unfold bind, get_user_from_db.
    destruct (select_by_key (String a k) db) as [r | ]; [ | exact Hnone].
    destruct (check_quota (verify_today c) r db) as [[user' | e] d] eqn:E.
    + apply check_quota_id in E. destruct E as [_ ->]. exact Hnone.
    + unfold check_quota in E.
      destruct (String.eqb (plan r) "free");
        [destruct (DAILY_LIMIT <=? _) | ]; injection E as _ <-; exact Hnone.
  - destruct (select_by_id (id user) db); exact Hnone.
  - simpl in Hw. subst uid. unfold commit_usage.
    destruct (too_soon _ _); [exact Hnone | ].
    destruct (date_neq (last_request_date u) (update_today c)); cbn [snd].
    + exists (set_reset (update_today c) (now_ts c)). auto.
    + exists (set_incr (now_ts c)). auto.
Qed.

(** A thread keeps working for its caller. *)
Lemma step_works_for (c : Clock) (uid : Z) (t : Thread) (db : DB) :
  works_for uid t db ->
  works_for uid (fst (step c t db)) (snd (step c t db)).
Proof.
  intros Hw.
  destruct t as [[[ | a k] | ] | user | user u | r]; cbn [step]; try exact I.
  - unfold bind, get_user_from_db.
    destruct (select_by_key (String a k) db) as [r | ] eqn:Hk; [ | exact I].
    destruct (check_quota (verify_today c) r db) as [[user' | e] d] eqn:E;
      [ | exact I].
    apply check_quota_id in E. destruct E as [Hid _]. cbn.
    rewrite Hid. apply (Hw r Hk).
  - destruct (select_by_id (id user) db); [exact Hw | exact I].
  - destruct (commit_usage _ _ _ _ _) as [[[] | e] d]; exact I.
Qed.

(** ... also while another caller's rows are updated. *)
Lemma works_for_update (uid uid' : Z) (f : User -> User) (t : Thread) (db : DB) :
  (forall u, id (f u) = id u) ->
  (forall u, api_key (f u) = api_key u) ->
  works_for uid t db ->
  works_for uid t (update_where_id uid' f db).
Proof.
  intros Hid Hkey Hw.
  destruct t as [[k | ] | user | user u | r]; cbn [works_for] in *; try assumption.
  intros r. rewrite select_by_key_update by assumption.
  destruct (select_by_key k db) as [r0 | ]; [ | discriminate].
  cbn [option_map]. intros H. injection H as <-.
  rewrite updated_row_id by assumption. apply Hw. reflexivity.
Qed.

(** A statement of caller A's thread is blind to an UPDATE of caller B's
    rows, and commutes with it. *)
Lemma step_frame (c : Clock) (uidA uidB : Z) (f : User -> User) (t : Thread) (db : DB) :
  uidA <> uidB ->
  (forall u, id (f u) = id u) ->
  (forall u, api_key (f u) = api_key u) ->
  works_for uidA t db ->
  step c t (update_where_id uidB f db)
  = (fst (step c t db), update_where_id uidB f (snd (step c t db))).
Proof.
  intros Hne Hid Hkey Hw.
  destruct t as [[[ | a k] | ] | user | user u | r]; cbn [step fst snd];
    try reflexivity.
  - unfold bind, get_user_from_db.
    rewrite select_by_key_update by assumption.
    destruct (select_by_key (String a k) db) as [r | ] eqn:Hk; cbn [option_map];
      [ | reflexivity].
    rewrite updated_row_other by (rewrite (Hw r Hk); exact Hne).
    unfold check_quota.
    destruct (String.eqb (plan r) "free");
      [destruct (DAILY_LIMIT <=? _) | ]; reflexivity.
  - rewrite select_by_id_update by assumption.
    destruct (select_by_id (id user) db) as [u | ] eqn:Hu; cbn [option_map];
      [ | reflexivity].
    assert (id u = id user)
      by (apply find_some in Hu; apply Z.eqb_eq; apply Hu).
    simpl in Hw. rewrite updated_row_other by congruence. reflexivity.
  - simpl in Hw. subst uidA. unfold commit_usage.
    destruct (too_soon _ _); [reflexivity | ].
    destruct (date_neq (last_request_date u) (update_today c)); cbn [fst snd];
      f_equal; apply update_where_id_comm; auto.
Qed.

(** One statement of B's thread commutes with any number of statements of
    A's thread, when A and B are different callers. *)
Lemma step_solo_commute (cA cB : Clock) (uidA uidB : Z) (n : nat) :
  uidA <> uidB ->
  forall (tA tB : Thread) (db : DB),
    works_for uidA tA db ->
    works_for uidB tB db ->
    step cB tB (snd (solo cA n tA db))
    = (fst (step cB tB db), snd (solo cA n tA (snd (step cB tB db))))
    /\ fst (solo cA n tA (snd (step cB tB db))) = fst (solo cA n tA db).
Proof.
  intros Hne. induction n as [ | n IH]; intros tA tB db HA HB.
  - cbn [solo fst snd]. split; [apply surjective_pairing | reflexivity].
  - destruct (step_effect cA uidA tA db HA) as (f & Hfi & Hfk & HeA).
    destruct (step_effect cB uidB tB db HB) as (g & Hgi & Hgk & HeB).
    pose proof (step_works_for cA uidA tA db HA) as HA1.
    assert (HB1 : works_for uidB tB (snd (step cA tA db)))
      by (rewrite HeA; apply works_for_update; assumption).
    (* the two single statements commute *)
    assert (HBA : step cB tB (snd (step cA tA db))
                  = (fst (step cB tB db),
                     update_where_id uidA f (snd (step cB tB db)))).
    { rewrite HeA. apply (step_frame cB uidB uidA f tB db); auto. }
    assert (HAB : step cA tA (snd (step cB tB db))
                  = (fst (step cA tA db),
                     update_where_id uidA f (snd (step cB tB db)))).
    { rewrite HeB at 1. rewrite (step_frame cA uidA uidB g tA db) by auto.
      rewrite HeA, HeB. f_equal. symmetry. apply update_where_id_comm; auto. }
    destruct (IH (fst (step cA tA db)) tB (snd (step cA tA db)) HA1 HB1)
      as [IH1 IH2].
    rewrite HBA in IH1, IH2. cbn [fst snd] in IH1, IH2.
    cbn [solo]. rewrite HAB.
    destruct (step cA tA db) as [tA1 dA]. cbn [fst snd] in *.
    split; [exact IH1 | exact IH2].
Qed.

(** Any interleaving of the statements of two requests of different callers
    leaves each thread where its own statements alone would have brought it
    from the initial table, and the table where the two runs one after the
    other would have left it. *)
Lemma interleave_different_callers (cA cB : Clock) (uidA uidB : Z) :
  uidA <> uidB ->
  forall (sched : list bool) (tA tB : Thread) (db : DB),
    works_for uidA tA db ->
    works_for uidB tB db ->
    interleave cA cB sched tA tB db
    = (fst (solo cA (turns false sched) tA db),
       fst (solo cB (turns true sched) tB db),
       snd (solo cB (turns true sched) tB
              (snd (solo cA (turns false sched) tA db)))).
Proof.
  intros Hne. induction sched as [ | b sched IH]; intros tA tB db HA HB;
    [reflexivity | ].
  destruct b; cbn [interleave turns Bool.eqb].
  - (* B advances *)
    destruct (step_effect cB uidB tB db HB) as (g & Hgi & Hgk & HeB).
    pose proof (step_works_for cB uidB tB db HB) as HB1.
    assert (HA1 : works_for uidA tA (snd (step cB tB db)))
      by (rewrite HeB; apply works_for_update; assumption).
    specialize (IH tA (fst (step cB tB db)) (snd (step cB tB db)) HA1 HB1).
    destruct (step_solo_commute cA cB uidA uidB (turns false sched) Hne tA tB db HA HB)
      as [Hc1 Hc2].
    cbn [solo]. rewrite Hc1.
    destruct (step cB tB db) as [tB1 dB]. cbn [fst snd] in *.
    rewrite IH, Hc2. reflexivity.
  - (* A advances *)
    destruct (step_effect cA uidA tA db HA) as (f & Hfi & Hfk & HeA).
    pose proof (step_works_for cA uidA tA db HA) as HA1.
    assert (HB1 : works_for uidB tB (snd (step cA tA db)))
      by (rewrite HeA; apply works_for_update; assumption).
    specialize (IH (fst (step cA tA db)) tB (snd (step cA tA db)) HA1 HB1).
    assert (Hne' : uidB <> uidA) by congruence.
    destruct (step_solo_commute cB cA uidB uidA (turns true sched) Hne' tB tA db HB HA)
      as [_ Hc2].
    cbn [solo].
    destruct (step cA tA db) as [tA1 dA]. cbn [fst snd] in *.
    rewrite IH, Hc2. reflexivity.
Qed.

Lemma solo_finished (c : Clock) (n : nat) (r : result User) (db : DB) :
  solo c n (Finished r) db = (Finished r, db).
Proof. induction n as [ | n IH]; [reflexivity | exact IH]. Qed.

(** Three statements or more complete a request. *)
Lemma solo_complete (c : Clock) (n : nat) (key : option string) (db : DB) :
  (3 <= n)%nat ->
  solo c n (AtLookup key) db
  = (Finished (fst (verify_api_key c key db)), snd (verify_api_key c key db)).
Proof.
  intros Hn. destruct n as [ | [ | [ | m]]]; try lia.
  pose proof (three_steps c key db) as H3. cbn [solo].
  destruct (step c (AtLookup key) db) as [t1 d1].
  destruct (step c t1 d1) as [t2 d2].
  destruct (step c t2 d2) as [t3 d3].
  injection H3 as -> ->. apply solo_finished.
Qed.

(** Requests of different callers do not interfere: however the statements
    of two requests whose credentials select rows with different ids are
    interleaved, once each has run its three statements each has the outcome
    it would have had alone on the initial table, and the table is the one
    left by running the first and then the second. *)
Theorem different_callers_do_not_interfere
  (cA cB : Clock) (kA kB : string) (rA rB : User) (db : DB) (sched : list bool) :
  select_by_key kA db = Some rA ->
  select_by_key kB db = Some rB ->
  id rA <> id rB ->
  (3 <= turns false sched)%nat ->
  (3 <= turns true sched)%nat ->
  interleave cA cB sched (AtLookup (Some kA)) (AtLookup (Some kB)) db
  = (Finished (fst (verify_api_key cA (Some kA) db)),
     Finished (fst (verify_api_key cB (Some kB) db)),
     snd (verify_api_key cB (Some kB) (snd (verify_api_key cA (Some kA) db)))).
Proof.
  intros HkA HkB Hne HnA HnB.
  rewrite (interleave_different_callers cA cB (id rA) (id rB) Hne).
  - rewrite !solo_complete by assumption. reflexivity.
  - intros r Hr. congruence.
  - intros r Hr. congruence.
Qed.

Lemma different_callers_do_not_interfere_witness :
  let a := free_row 3 (Some 100) (Some (1000 # 1)) in
  let b := pro_row 5 (Some 99) None in
  select_by_key "key-7" [a; b] = Some a /\
  select_by_key "key-8" [a; b] = Some b /\
  id a <> id b /\
  interleave (at_time 100 (5000 # 1)) (at_time 100 (50001 # 10)) both_read_first
    (AtLookup (Some "key-7")) (AtLookup (Some "key-8")) [a; b]
  = (Finished (Ok a), Finished (Ok b),
     [free_row 4 (Some 100) (Some (5000 # 1));
      pro_row 1 (Some 100) (Some (50001 # 10))]).
Proof.
  intros a b. split; [reflexivity | ]. split; [reflexivity | ].
  split; [discriminate | ].
  apply (different_callers_do_not_interfere
           (at_time 100 (5000 # 1)) (at_time 100 (50001 # 10)) "key-7" "key-8"
           (free_row 3 (Some 100) (Some (1000 # 1))) (pro_row 5 (Some 99) None)
           [free_row 3 (Some 100) (Some (1000 # 1)); pro_row 5 (Some 99) None]
           both_read_first eq_refl eq_refl);
    [discriminate | apply le_n | apply le_n].
Defined.
